(* ===== verification/_CoqProject ===== *)
-Q . S2P
Prelude.v
Helpers.v
Config.v
OptParse.v
Link.v
Magnet.v
Ledger.v
Effects.v
Eligibility.v
Dispatch.v
Markdown.v
Dates.v
Main.v
Startup.v
