(* ===== verification/Prelude.v ===== *)
(** * Shaarchiver: a model of [src/bookmarks-fetcher.py]

    [bookmarks-fetcher.py] (Python 2, 410 lines) reads a Shaarli/Netscape
    bookmark export, and for every bookmark decides whether to fetch its
    content: a magnet reference is saved to [<hash>.magnet], links tagged for
    video or audio are handed to [youtube-dl], a page fetch is only logged
    (the page download is a placeholder in the code).  A persisted ledger
    [done.log] lists URLs fetched by earlier runs so that a re-run skips them.

    ** The program's parts and how they interact

    The script parses its arguments (lines 286-312), checks them, converts
    the date bounds and creates the output directories (lines 315-363),
    reads [done.log] and the export (lines 366-374), then loops over the
    links (lines 387-404): date filter, the gate [check_dl], the three
    handlers, the markdown line.  Every part is modelled:
    - Helpers ([match_list], [make_unicode], the [str]/[unicode] builtins
      the program calls: [split], [join], [startswith], [splitlines],
      [replace], indexing with [IndexError]).
    - Configuration: the module-level constants and the [options] object.
    - Option parsing: [parser.parse_args()], optparse's argument loop for
      the option table of lines 286-311.
    - Link parsing ([get_link_list], [getlinktags], [get_all_tags]).
    - The eligibility gate [check_dl] (first failing check wins).
    - Magnet hash extraction: [re.findall] of [xt= .* : ( [^&]* )]
      (spaces added here) on the link's URL.
    - The handlers [download_page], [download_video], [download_audio].
    - The ledger [done.log]: read once with [readlines], appended to.
    - The markdown summary [gen_markdown].
    - Dates: [datetime.strptime(.., "%d/%m/%Y").date()] and the calendar
      of [date.toordinal].
    - Start-up and the whole script.

    ** Files, modules and how they correspond to the code

    - [Prelude] (this file): the Python exception type [py_exn], the
      outcome type of fallible code, the state-and-exception monad [PyM]
      (state passing of the files, stdout and subprocess calls; an
      exception is a [Raise] outcome that skips the rest, as Python's
      uncaught exceptions do), the [preserves] library for invariants of
      monadic code with its tactic [preserves_tac], string lemmas, the
      hint databases [shaar], [pym] and [shaar_str].
    - [Helpers]: module [Py] (Python builtins), [match_list].
    - [Config]: constants of lines 27-54, the [Options] record (fields
      keep their Python type: the default of [--markdown] is the string
      ["False"]), [default_options].
    - [OptParse]: [parse_args], [process_args], [cluster], [match_long].
    - [Link]: [Link], the parsed nodes, [get_link_list] (lines 106-132),
      [get_all_tags].
    - [Magnet]: module [Magnet], the regular expression of line 183.
    - [Ledger]: module [Ledger], [done.log] loading (lines 366-368) and
      appending; the spec's ledger contract as the classes [RunLedger]
      and [RunLedgerLaws], discharged by the [done.log] instance.
    - [Effects]: the [World] record (the existing directories, stdout,
      the run log, [done.log], the markdown summary, the magnet files,
      the youtube-dl calls), the primitive writes ([write_file] raises
      [IOError] as [open(path, "w+")] does when the directory part of
      the path does not exist or the path is a directory), the
      relations [done_tracks], [calls_only],
      [quiet], [appends]; the class [YtdlTool] is the interface of the
      external tool (an exit code per call), every theorem quantifies
      over its instances.
    - [Eligibility]: [check_dl] (lines 148-171) and the spec's gate.
    - [Dispatch]: the handlers (lines 174-260) and the spec's classifier
      (section 4.1: a magnet gets the magnet action and no media fetch).
    - [Markdown]: [gen_markdown] (lines 266-279), Python 2 [repr].
    - [Dates]: modules [Cal] ([_ymd2ord] and its helpers) and [Strptime]
      (the backtracking match of CPython's [_strptime] expression).
    - [Main]: [date_filter], [process_link], [main_loop], [run]
      (lines 365-404).
    - [Startup]: [Env] (the world plus the readable input files; the
      directories [os.makedirs] creates are the world's [w_dirs]),
      [check_destdir], [open_bookmarks], [convert_dates],
      [make_output_dirs], [open_outputs], [program] (lines 315-410) and
      [main_entry] (the script from line 286).

    ** Theorem groups

    The claims are numbered C1-C34 in their doc comments.
    - The gate (C1-C4): each branch, refinement of the spec's gate, the
      [--tag] character filter.
    - Dispatch and magnets (C5-C11): C5 refines the spec's classifier
      where code and spec agree; magnet hashes (C6 btih, C7 the tracker
      port the greedy regex returns); C8 a magnet with a video tag is
      also given to youtube-dl, against the spec; C9 a magnet file whose
      directory is missing aborts the run with [IOError]; C10 a failed
      call is not recorded; C11 a link with video and audio tags is
      recorded twice.
    - The ledger (C12-C13): round trip, and CRLF lines never match.
    - Link parsing (C14-C16): totality, [get_all_tags], the tag split.
    - The loop (C17-C22): aborts on a hashless magnet or a date bound,
      [done.log] tracks the successful calls, no URL of [done.log] is
      fetched again, the markdown header by default, duplicates.
    - Dates (C23): the [strptime] round trip.
    - Start-up (C24-C30): the exits, [makedirs], the program is [run]
      after start-up, a [--min-date] always aborts.
    - Option parsing (C31-C33): clusters, value forms, error messages.
    - The whole script (C34).

    ** Fuel and bounds

    [Magnet.findall] runs on fuel [length + 1]; [findall_fuel_enough]
    shows any fuel above the length gives the same result, each step
    consuming a character.  Every other recursion is structural.  Dates
    are unbounded integers, as Python's; [strptime] reads a four-digit
    year, so [strptime_fmt] is stated for years 1000-9999.

    ** What is not modelled

    Network and subprocess behaviour (youtube-dl is an oracle returning an
    exit code), BeautifulSoup's HTML parsing (its node list is a section
    variable of [Startup]), the help and usage texts of optparse (a
    section variable; standard error is not part of the world), the file
    names built from [curdate], file permissions, [open] failures other
    than a missing directory or a directory path (for instance a
    component of the path that is a file), and [os.makedirs] beyond its
    contract (paths are compared as strings, without normalisation),
    [debug_wait] (never called), and the Python 2 byte/unicode
    distinction ([make_unicode] is the identity on the model's strings,
    whose characters stand for code points below 256).  *)

From stdpp Require Export base list strings gmap.
From Stdlib Require Export Ascii ZArith Lia.

(** ** Characters *)

Definition nl : ascii := "010"%char.
Definition cr : ascii := "013"%char.
Definition NL : string := String nl "".

(** ** Python exceptions and outcomes *)

Inductive py_exn : Type :=
| IndexError
| KeyError
| AttributeError
| ValueError
| TypeError
| IOError
| OSError
| SystemExit (code : Z).

Inductive outcome (A : Type) : Type :=
| Ok (a : A)
| Raise (e : py_exn).
Arguments Ok {A} a.
Arguments Raise {A} e.

#[export] Instance outcome_ret : MRet outcome := λ A a, Ok a.
#[export] Instance outcome_bind : MBind outcome := λ A B k o,
  match o with Ok a => k a | Raise e => Raise e end.

Lemma outcome_bind_Ok {A B} (o : outcome A) (k : A → outcome B) b :
  o ≫= k = Ok b ↔ ∃ a, o = Ok a ∧ k a = Ok b.
Proof. destruct o as [a|e]; simpl; naive_solver. Qed.

Lemma outcome_ret_Ok {A} (a b : A) : mret (M:=outcome) a = Ok b ↔ a = b.
Proof. split; [by inversion 1|by intros ->]. Qed.

(** [outcome_inv] takes apart a hypothesis [c = Ok v] where [c] is a chain
    of binds, conditionals and returns. *)
Ltac outcome_inv :=
  repeat match goal with
  | H : _ ≫= _ = Ok _ |- _ => apply outcome_bind_Ok in H as (? & ? & H)
  | H : @mret outcome _ _ _ = Ok _ |- _ => unfold mret, outcome_ret in H
  | H : Ok _ = Ok _ |- _ => injection H as H; subst
  | H : Raise _ = Ok _ |- _ => discriminate H
  | H : (if ?b then _ else _) = Ok _ |- _ => destruct b eqn:?
  | H : (match ?o with Ok _ => _ | Raise _ => _ end) = Ok _ |- _ => destruct o eqn:?
  end.

(** ** The state-and-exception monad of handlers

    [PyM S A] threads a state [S] through a computation that may raise a
    Python exception; the state reached at the point of the exception is
    kept (files written before an uncaught exception stay written). *)

Definition PyM (S A : Type) : Type := S → S * outcome A.

#[export] Instance pyM_ret S : MRet (PyM S) := λ A a s, (s, Ok a).
#[export] Instance pyM_bind S : MBind (PyM S) := λ A B k c s,
  match c s with
  | (s', Ok a) => k a s'
  | (s', Raise e) => (s', Raise e)
  end.

Definition raise {S A} (e : py_exn) : PyM S A := λ s, (s, Raise e).
Definition modify {S} (f : S → S) : PyM S unit := λ s, (f s, Ok tt).
Definition gets {S A} (f : S → A) : PyM S A := λ s, (s, Ok (f s)).
Definition liftO {S A} (o : outcome A) : PyM S A := λ s, (s, o).

(** [final c s] is the final state, [result c s] the outcome. *)
Abbreviation final c s := (c s).1.
Abbreviation result c s := (c s).2.

Create Rewrite HintDb pym.
Create Rewrite HintDb shaar_str.
Create HintDb shaar discriminated.

Section monad_laws.
Context {S : Type}.

Lemma pym_bind_ret_l {A B} (a : A) (k : A → PyM S B) s :
  (mret a ≫= k) s = k a s.
Proof. reflexivity. Qed.

Lemma pym_bind_ret_r {A} (c : PyM S A) s : (c ≫= mret) s = c s.
Proof. unfold mbind, pyM_bind. by destruct (c s) as [? []]. Qed.

Lemma pym_bind_assoc {A B C} (c : PyM S A) (k1 : A → PyM S B)
    (k2 : B → PyM S C) s :
  ((c ≫= k1) ≫= k2) s = (c ≫= (λ a, k1 a ≫= k2)) s.
Proof. unfold mbind, pyM_bind. by destruct (c s) as [? []]. Qed.

Lemma pym_bind_raise {A B} e (k : A → PyM S B) s :
  (raise e ≫= k) s = (s, Raise e).
Proof. reflexivity. Qed.

Lemma pym_bind_step {A B} (c : PyM S A) (k : A → PyM S B) s s' a :
  c s = (s', Ok a) → (c ≫= k) s = k a s'.
Proof. intros Hc. unfold mbind, pyM_bind. by rewrite Hc. Qed.

Lemma pym_bind_fail {A B} (c : PyM S A) (k : A → PyM S B) s s' e :
  c s = (s', Raise e) → (c ≫= k) s = (s', Raise e).
Proof. intros Hc. unfold mbind, pyM_bind. by rewrite Hc. Qed.
End monad_laws.

#[export] Hint Rewrite @pym_bind_ret_l @pym_bind_assoc @pym_bind_raise : pym.

(** ** Invariants of monadic code

    [preserves R c]: whatever the start state, the state [c] ends in (with
    or without an exception) is related to it by [R].  With [R] a preorder
    the property composes through [≫=], which is how the handlers'
    invariants are proved from those of the primitives. *)

Section preserves.
Context {S : Type} (R : relation S).

Definition preserves {A} (c : PyM S A) : Prop := ∀ s, R s (final c s).

Context `{!PreOrder R}.

Lemma preserves_ret {A} (a : A) : preserves (mret a).
Proof. intros s. simpl. reflexivity. Qed.

Lemma preserves_raise {A} e : preserves (raise (A:=A) e).
Proof. intros s. simpl. reflexivity. Qed.

Lemma preserves_liftO {A} (o : outcome A) : preserves (liftO o).
Proof. intros s. simpl. reflexivity. Qed.

Lemma preserves_gets {A} (f : S → A) : preserves (gets f).
Proof. intros s. simpl. reflexivity. Qed.

Lemma preserves_modify f : (∀ s, R s (f s)) → preserves (modify f).
Proof. intros Hf s. apply Hf. Qed.

Lemma preserves_bind {A B} (c : PyM S A) (k : A → PyM S B) :
  preserves c → (∀ a, preserves (k a)) → preserves (c ≫= k).
Proof.
  intros Hc Hk s. unfold mbind, pyM_bind.
  specialize (Hc s). destruct (c s) as [s' [a|e]]; simpl in *; [|done].
  etrans; [exact Hc|]. apply Hk.
Qed.

(** Bind with what the first computation guarantees of its value. *)
Lemma preserves_bind_post {A B} (Q : A → Prop) (c : PyM S A) (k : A → PyM S B) :
  preserves c → (∀ s s' a, c s = (s', Ok a) → Q a) →
  (∀ a, Q a → preserves (k a)) → preserves (c ≫= k).
Proof.
  intros Hc HQ Hk s. unfold mbind, pyM_bind.
  specialize (Hc s). destruct (c s) as [s' [a|e]] eqn:E; simpl in *; [|done].
  etrans; [exact Hc|]. by apply Hk, (HQ s s').
Qed.

Lemma preserves_if {A} (b : bool) (c1 c2 : PyM S A) :
  preserves c1 → preserves c2 → preserves (if b then c1 else c2).
Proof. by destruct b. Qed.
End preserves.

Lemma preserves_weaken {S A} (R R' : relation S) (c : PyM S A) :
  (∀ s s', R s s' → R' s s') → preserves R c → preserves R' c.
Proof. intros HR Hc s. apply HR, Hc. Qed.

#[export] Hint Resolve preserves_ret preserves_raise preserves_liftO
  preserves_gets preserves_if : shaar.
#[export] Hint Extern 2 (preserves _ (_ ≫= _)) =>
  apply preserves_bind; [|intros ?] : shaar.

(** [preserves_tac] decomposes a handler into its primitives. *)
Ltac preserves_step :=
  lazymatch goal with
  | |- preserves _ (mbind _ _) => apply preserves_bind; try typeclasses eauto; [|intros ?]
  | |- preserves _ (if _ then _ else _) => apply preserves_if
  | |- preserves _ (mret _) => apply preserves_ret; typeclasses eauto
  | |- preserves _ (raise _) => apply preserves_raise; typeclasses eauto
  | |- preserves _ (liftO _) => apply preserves_liftO; typeclasses eauto
  | |- preserves _ (gets _) => apply preserves_gets; typeclasses eauto
  | |- preserves _ (match ?x with _ => _ end) => destruct x
  end.

(** [preserves_tac] decomposes a handler syntactically into binds,
    conditionals and returns, and closes the leaves with the [shaar]
    hints (the lemmas of the called handlers). *)
Ltac preserves_tac :=
  repeat first [ solve [eauto with shaar] | preserves_step ];
  eauto with shaar.

(** ** Strings *)

Lemma string_app_nil_l (s : string) : "" +:+ s = s.
Proof. reflexivity. Qed.

Lemma string_app_cons c (s t : string) : String c s +:+ t = String c (s +:+ t).
Proof. reflexivity. Qed.

Lemma string_app_nil_r (s : string) : s +:+ "" = s.
Proof. induction s as [|c s IH]; [done|]. by rewrite string_app_cons, IH. Qed.

Lemma string_app_assoc (s t u : string) : s +:+ (t +:+ u) = (s +:+ t) +:+ u.
Proof. induction s as [|c s IH]; [done|]. by rewrite !string_app_cons, IH. Qed.

#[export] Hint Rewrite string_app_nil_l string_app_cons string_app_nil_r : shaar_str.

(** [concat_strings l] is [''.join(l)]. *)
Definition concat_strings (l : list string) : string := foldr String.append "" l.

Lemma concat_strings_app l1 l2 :
  concat_strings (l1 ++ l2) = concat_strings l1 +:+ concat_strings l2.
Proof.
  induction l1 as [|x l1 IH]; simpl; [done|].
  by rewrite IH, string_app_assoc.
Qed.

Lemma concat_strings_cons x l : concat_strings (x :: l) = x +:+ concat_strings l.
Proof. reflexivity. Qed.

Lemma concat_strings_nil : concat_strings [] = "".
Proof. reflexivity. Qed.

#[export] Hint Rewrite concat_strings_app concat_strings_cons concat_strings_nil : shaar_str.

(** Membership in a concrete list, decided by computation. *)
Ltac list_mem :=
  first [ apply list_elem_of_In; simpl; tauto
        | rewrite list_elem_of_In; simpl; intuition discriminate ].
