(* ===== verification/Helpers.v ===== *)
(** * Helpers: [match_list], [make_unicode] and the Python builtins

    The helper functions of lines 65-89 of [bookmarks-fetcher.py] and the
    string and list builtins the program calls ([str.split], [str.join],
    [str.startswith], [unicode.splitlines], [str.replace], [l[i]], iterating
    a string).  [debug_wait] (lines 65-70) is interactive I/O and is not
    used by the program; it is not modelled. *)

From S2P Require Import Prelude.

(** ** [match_list] (lines 72-79): [bool(set(linktags) & set(matchagainst))] *)

Definition match_list (linktags matchagainst : list string) : bool :=
  bool_decide (list_to_set linktags ∩ list_to_set matchagainst ≠ (∅ : gset string)).

(** ** [make_unicode] (lines 81-89): the model's strings are already text. *)

Definition make_unicode (input : string) : string := input.

Module Py.

(** [s.split(sep)] for a one-character separator: never empty, and
    [''.split(',') = ['']]. *)
Fixpoint split (sep : ascii) (s : string) : list string :=
  match s with
  | EmptyString => [""]
  | String c r =>
      if decide (c = sep) then "" :: split sep r
      else match split sep r with
           | p :: ps => String c p :: ps
           | [] => [String c ""]
           end
  end.

(** [sep.join(l)] *)
Definition join (sep : string) (l : list string) : string :=
  match l with
  | [] => ""
  | x :: r => x +:+ concat_strings (map (λ y, sep +:+ y) r)
  end.

(** [s.startswith(prefix)] *)
Definition startswith (s prefix : string) : bool := String.prefix prefix s.

(** [l[i]] for a non-negative index: [IndexError] out of range. *)
Definition index {A} (l : list A) (i : nat) : outcome A :=
  match l !! i with Some x => Ok x | None => Raise IndexError end.

(** [set(s)] for a string [s] iterates over its characters. *)
Definition chars (s : string) : list string :=
  map (λ c, String c "") (String.list_ascii_of_string s).

(** Membership of a character in a string. *)
Fixpoint has_char (c : ascii) (s : string) : bool :=
  match s with
  | EmptyString => false
  | String d r => bool_decide (d = c) || has_char c r
  end.

(** The line boundaries of [unicode.splitlines] below code point 256:
    \n, \x0b, \x0c, \r, \x1c, \x1d, \x1e, \x85 (\r\n counts as one). *)
Definition is_line_boundary (c : ascii) : bool :=
  bool_decide (nat_of_ascii c ∈ [10; 11; 12; 13; 28; 29; 30; 133]).

(** [s.splitlines(True)]: the lines with their terminators kept. *)
Fixpoint splitlines (s : string) : list string :=
  match s with
  | EmptyString => []
  | String c r =>
      if decide (c = cr) then
        match r with
        | String d r' =>
            if decide (d = nl) then String c (String d "") :: splitlines r'
            else String c "" :: splitlines r
        | EmptyString => [String c ""]
        end
      else if is_line_boundary c then String c "" :: splitlines r
      else match splitlines r with
           | [] => [String c ""]
           | l :: ls => String c l :: ls
           end
  end.

(** [s.replace(c, '')] *)
Fixpoint remove_char (c : ascii) (s : string) : string :=
  match s with
  | EmptyString => EmptyString
  | String d r => if decide (d = c) then remove_char c r else String d (remove_char c r)
  end.

End Py.

(** ** Lemmas *)

Lemma has_char_cons_false c d r :
  Py.has_char c (String d r) = false ↔ d ≠ c ∧ Py.has_char c r = false.
Proof.
  simpl. rewrite orb_false_iff, bool_decide_eq_false. done.
Qed.

Lemma has_char_app_false c s t :
  Py.has_char c (s +:+ t) = false ↔ Py.has_char c s = false ∧ Py.has_char c t = false.
Proof.
  induction s as [|d s IH]; [naive_solver|].
  rewrite string_app_cons, !has_char_cons_false, IH. naive_solver.
Qed.


Lemma match_list_spec (a b : list string) :
  match_list a b = true ↔ ∃ x, x ∈ a ∧ x ∈ b.
Proof.
  unfold match_list. rewrite bool_decide_eq_true. split.
  - intros Hne. destruct (set_choose_L _ Hne) as [x Hx]. set_solver.
  - intros (x & Ha & Hb) Hempty. set_solver.
Qed.

Lemma match_list_false (a b : list string) :
  match_list a b = false ↔ ∀ x, x ∈ a → x ∉ b.
Proof.
  rewrite <- not_true_iff_false, match_list_spec. naive_solver.
Qed.

Lemma match_list_intro (a b : list string) x :
  x ∈ a → x ∈ b → match_list a b = true.
Proof. intros. apply match_list_spec. eauto. Qed.

Lemma match_list_singleton_l x (b : list string) :
  match_list [x] b = bool_decide (x ∈ b).
Proof.
  destruct (bool_decide (x ∈ b)) eqn:E.
  - apply bool_decide_eq_true in E. apply match_list_spec. set_solver.
  - apply bool_decide_eq_false in E. apply match_list_false. set_solver.
Qed.

Lemma match_list_nil_l (b : list string) : match_list [] b = false.
Proof. apply match_list_false. set_solver. Qed.

#[export] Hint Resolve match_list_intro : shaar.

Lemma split_not_nil sep s : Py.split sep s ≠ [].
Proof.
  destruct s as [|c r]; simpl; [done|].
  case_decide; [done|]. by destruct (Py.split sep r).
Qed.

(** No piece of [s.split(sep)] contains [sep]. *)
Lemma split_pieces_no_sep sep s : Forall (λ x, Py.has_char sep x = false) (Py.split sep s).
Proof.
  induction s as [|c r IH]; simpl; [by constructor|].
  case_decide as Hc; [by constructor|].
  destruct (Py.split sep r) as [|p ps]; inversion_clear IH; repeat constructor; try done;
    simpl; rewrite bool_decide_false by done; done.
Qed.

Lemma join_cons2 sep x y r :
  Py.join sep (x :: y :: r) = x +:+ sep +:+ Py.join sep (y :: r).
Proof. unfold Py.join. simpl. by rewrite <- string_app_assoc. Qed.

(** [sep.join(s.split(sep)) == s] *)
Lemma join_split sep s : Py.join (String sep "") (Py.split sep s) = s.
Proof.
  induction s as [|c r IH]; [done|]. simpl.
  pose proof (split_not_nil sep r) as Hne.
  destruct (Py.split sep r) as [|p ps] eqn:E; [done|].
  case_decide as Hc; [subst c|].
  - rewrite join_cons2. by rewrite IH.
  - unfold Py.join in *. rewrite string_app_cons. by rewrite IH.
Qed.

Lemma split_app_sep sep x rest :
  Py.has_char sep x = false →
  Py.split sep (x +:+ String sep rest) = x :: Py.split sep rest.
Proof.
  induction x as [|c x IH]; intros Hx; simpl in *.
  - by rewrite decide_True.
  - apply has_char_cons_false in Hx as [Hc Hx].
    rewrite decide_False by done.
    by rewrite IH.
Qed.

Lemma split_no_sep sep x : Py.has_char sep x = false → Py.split sep x = [x].
Proof.
  induction x as [|c x IH]; intros Hx; [done|].
  apply has_char_cons_false in Hx as [Hc Hx]. simpl.
  rewrite decide_False by done. by rewrite IH.
Qed.

(** [sep.join(l).split(sep) == l] when no element contains [sep]. *)
Lemma split_join sep l :
  l ≠ [] → Forall (λ x, Py.has_char sep x = false) l →
  Py.split sep (Py.join (String sep "") l) = l.
Proof.
  intros Hne Hall. induction Hall as [|x l Hx Hall IH]; [done|].
  destruct l as [|y l].
  - simpl. rewrite string_app_nil_r. by apply split_no_sep.
  - rewrite join_cons2, string_app_cons, string_app_nil_l.
    rewrite split_app_sep by done. f_equal. by apply IH.
Qed.

Lemma splitlines_line (u rest : string) :
  Forall (λ c, Py.is_line_boundary c = false) (String.list_ascii_of_string u) →
  Py.splitlines (u +:+ String nl rest) = (u +:+ NL) :: Py.splitlines rest.
Proof.
  induction u as [|c u IH]; intros Hu; simpl in *.
  - reflexivity.
  - apply Forall_cons in Hu as [Hc Hu].
    rewrite decide_False by (intros ->; done). rewrite Hc, IH by done.
    reflexivity.
Qed.

Lemma remove_char_app c s t :
  Py.remove_char c (s +:+ t) = Py.remove_char c s +:+ Py.remove_char c t.
Proof.
  induction s as [|d s IH]; simpl; [done|].
  case_decide; by rewrite IH.
Qed.

Lemma remove_char_absent c s : Py.has_char c s = false → Py.remove_char c s = s.
Proof.
  induction s as [|d s IH]; intros Hs; simpl in *; [done|].
  apply has_char_cons_false in Hs as [Hd Hs].
  rewrite decide_False by done.
  by rewrite IH.
Qed.
