(* ===== verification/Config.v ===== *)
(** * Config: the module-level constants and the [options] object

    Lines 26-54 of [bookmarks-fetcher.py] define the tag lists, the
    blacklist and the youtube-dl arguments; lines 286-312 build [options]
    with [optparse], and lines 332-344 add the date attributes.  The
    [Options] record holds every attribute the program reads, with the
    Python type it has: the defaults of [--markdown], [--mp3] and
    [--no-download] are the strings "False"/"True", not booleans, so those
    fields hold a [pyval]. *)

From S2P Require Import Prelude Helpers.

(** ** Constants (lines 26-54) *)

Definition download_video_for : list string := ["video"; "documentaire"].
Definition download_audio_for : list string := ["musique"; "music"; "samples"].
Definition force_page_download_for : list string := ["index"; "doc"; "lecture"].
Definition nodl_tag : list string := ["nodl"].
Definition recurse_extensions : list string :=
  ["htm"; "html"; "zip"; "png"; "jpg"; "jpeg"; "wav"; "ogg"; "mp3";
   "flac"; "avi"; "webm"; "ogv"; "mp4"; "pdf"].
Definition ytdl_naming : string := "%(title)s-%(extractor)s-%(playlist_id)s%(id)s.%(ext)s".
Definition ytdl_args : list string :=
  ["--no-playlist"; "--continue"; "--max-filesize"; "1200M";
   "--ignore-errors"; "--console-title"; "--add-metadata"].
Definition url_blacklist : list string :=
  ["http://www.midomi.com/";
   "http://broadcast.infomaniak.net/radionova-high.mp3";
   "https://en.wikipedia.org/wiki/Youtube";
   "http://bandcamp.com/"; "https://vimeo.com/"; "https://www.youtube.com";
   "https://soundcloud.com"].

(** ** Python values held by option attributes *)

Inductive pyval : Type :=
| PyBool (b : bool)
| PyStr (s : string)
| PyNone.

(** Truth value of [v] in [if v:]. *)
Definition truthy (v : pyval) : bool :=
  match v with
  | PyBool b => b
  | PyStr s => bool_decide (s ≠ "")
  | PyNone => false
  end.

(** [v == True] and [v == False]: a string never equals a boolean. *)
Definition py_eq_bool (v : pyval) (b : bool) : bool :=
  match v with
  | PyBool b' => Bool.eqb b' b
  | _ => false
  end.

(** ** The [options] object

    [minimum_date_parsed]/[maximum_date_parsed] are [None] while the
    attribute is unset; dates are day numbers (days since 1970-01-01). *)

Record Options : Type := mkOptions {
  usertag : option string;
  bookmarksfilename : option string;
  destdir : option string;
  markdown : pyval;
  mp3 : pyval;
  download : pyval;
  minimum_date : option string;
  maximum_date : option string;
  no_skip : bool;
  compare_with_max : bool;
  compare_with_min : bool;
  should_compare_dates : bool;
  minimum_date_parsed : option Z;
  maximum_date_parsed : option Z
}.

(** The values [parser.parse_args()] gives when no flag is passed (the
    [default=] of lines 287-311; an option without default is [None]), and
    the three attributes of lines 332-334. *)
Definition default_options : Options := {|
  usertag := None;
  bookmarksfilename := None;
  destdir := None;
  markdown := PyStr "False";
  mp3 := PyStr "False";
  download := PyStr "True";
  minimum_date := None;
  maximum_date := None;
  no_skip := false;
  compare_with_max := false;
  compare_with_min := false;
  should_compare_dates := false;
  minimum_date_parsed := None;
  maximum_date_parsed := None
|}.

(** [options.destdir] where it is used: the program exits at line 316
    before any use when it is unset. *)
Definition destdir_path (o : Options) : string :=
  match destdir o with Some d => d | None => "" end.

(** [options.usertag] in [if options.usertag and ...]. *)
Definition usertag_set (o : Options) : option string :=
  match usertag o with
  | Some s => if bool_decide (s = "") then None else Some s
  | None => None
  end.

(** ** Option values used by the examples

    [opts_for d t]: destination [d], tag filter [t], every other option
    at its default and no date bound, as after start-up. *)
Definition opts_for (d : string) (t : option string) : Options :=
  mkOptions t (Some "bookmarks.html") (Some d) (PyStr "False") (PyStr "False") (PyStr "True")
    None None false false false false None None.
