(* ===== verification/OptParse.v ===== *)
(** * OptParse: [parser.parse_args()] (lines 286-312)

    The parser of lines 286-311 has the options [-t/--tag], [-f/--file],
    [-d/--destination], [--min-date], [--max-date] (action [store], one
    argument), [-m/--markdown], [-3/--mp3], [--no-skip] ([store_true])
    and [-n/--no-download] ([store_false]), plus the [-h/--help] option
    [OptionParser] adds.  [parse_args] runs Python 2.7's
    [OptionParser._process_args] over [sys.argv[1:]]:
    - [--] ends the options, the rest are positional arguments;
    - an argument starting with [--] is a long option, written in full
      or as a unique prefix ([_match_abbrev]), its value after [=] or in
      the next argument;
    - an argument starting with [-] (and longer than [-]) is a cluster
      of short options; an option that takes a value takes the rest of
      the cluster, or else the next argument;
    - anything else is a positional argument (interspersed arguments
      are allowed).
    An unknown or ambiguous option, a missing value or a value given to
    a flag makes [parser.error] print the usage and the message on
    standard error and exit with status 2; [-h] prints the help and
    exits with status 0.  Values start at the [default=]s
    ([default_options]). *)

From S2P Require Import Prelude Helpers Config.

Inductive opt_id : Type :=
| OHelp | OTag | OFile | ODest | OMarkdown | OMp3 | ONoDownload | OMinDate | OMaxDate | ONoSkip.

#[export] Instance opt_id_eq_dec : EqDecision opt_id.
Proof. solve_decision. Defined.

(** [parser._short_opt] *)
Definition short_opt (c : ascii) : option opt_id :=
  if bool_decide (c = "h"%char) then Some OHelp
  else if bool_decide (c = "t"%char) then Some OTag
  else if bool_decide (c = "f"%char) then Some OFile
  else if bool_decide (c = "d"%char) then Some ODest
  else if bool_decide (c = "m"%char) then Some OMarkdown
  else if bool_decide (c = "3"%char) then Some OMp3
  else if bool_decide (c = "n"%char) then Some ONoDownload
  else None.

(** [parser._long_opt] *)
Definition long_opts : list (string * opt_id) :=
  [("--help", OHelp); ("--tag", OTag); ("--file", OFile); ("--destination", ODest);
   ("--markdown", OMarkdown); ("--mp3", OMp3); ("--no-download", ONoDownload);
   ("--min-date", OMinDate); ("--max-date", OMaxDate); ("--no-skip", ONoSkip)].

(** [option.takes_value()]: the [store] options. *)
Definition takes_value (k : opt_id) : bool :=
  match k with OTag | OFile | ODest | OMinDate | OMaxDate => true | _ => false end.

(** [option.process(opt, value, values, parser)] for every action but
    [help]: [store] sets the string, [store_true]/[store_false] the
    boolean. *)
Definition set_opt (k : opt_id) (v : string) (o : Options) : Options :=
  let 'mkOptions ut bf dd md m3 dl mn mx ns cmx cmn scd mnp mxp := o in
  match k with
  | OTag => mkOptions (Some v) bf dd md m3 dl mn mx ns cmx cmn scd mnp mxp
  | OFile => mkOptions ut (Some v) dd md m3 dl mn mx ns cmx cmn scd mnp mxp
  | ODest => mkOptions ut bf (Some v) md m3 dl mn mx ns cmx cmn scd mnp mxp
  | OMarkdown => mkOptions ut bf dd (PyBool true) m3 dl mn mx ns cmx cmn scd mnp mxp
  | OMp3 => mkOptions ut bf dd md (PyBool true) dl mn mx ns cmx cmn scd mnp mxp
  | ONoDownload => mkOptions ut bf dd md m3 (PyBool false) mn mx ns cmx cmn scd mnp mxp
  | OMinDate => mkOptions ut bf dd md m3 dl (Some v) mx ns cmx cmn scd mnp mxp
  | OMaxDate => mkOptions ut bf dd md m3 dl mn (Some v) ns cmx cmn scd mnp mxp
  | ONoSkip => mkOptions ut bf dd md m3 dl mn mx true cmx cmn scd mnp mxp
  | OHelp => o
  end.

(** Python's [<] on [str]: by character codes. *)
Fixpoint str_ltb (a b : string) : bool :=
  match a, b with
  | EmptyString, String _ _ => true
  | String c a', String d b' =>
      if Nat.ltb (nat_of_ascii c) (nat_of_ascii d) then true
      else if Nat.eqb (nat_of_ascii c) (nat_of_ascii d) then str_ltb a' b' else false
  | _, EmptyString => false
  end.

Fixpoint insert_sorted (x : string) (l : list string) : list string :=
  match l with
  | [] => [x]
  | y :: r => if str_ltb y x then y :: insert_sorted x r else x :: l
  end.

(** [possibilities.sort()] *)
Definition sort_strings (l : list string) : list string := foldr insert_sorted [] l.

(** The outcome of [parse_args]: the values and positional arguments,
    the help, or an error message for [parser.error]. *)
Inductive parse_result : Type :=
| PArgs (o : Options) (args : list string)
| PHelp
| PError (msg : string).

(** [_match_abbrev(s, self._long_opt)]: the full option name and the
    option, or the message of [BadOptionError]/[AmbiguousOptionError]. *)
Definition match_long (s : string) : (string * opt_id) + string :=
  match list_find (λ p, p.1 = s) long_opts with
  | Some (_, (full, k)) => inl (full, k)
  | None =>
      match filter (λ p, String.prefix s p.1 = true) long_opts with
      | [(full, k)] => inl (full, k)
      | [] => inr ("no such option: " +:+ s)
      | ps => inr ("ambiguous option: " +:+ s +:+ " (" +:+
                   Py.join ", " (sort_strings (map fst ps)) +:+ "?)")
      end
  end.

(** [arg.split("=", 1)] when ["="] is in [arg]. *)
Fixpoint split_eq (s : string) : string * option string :=
  match s with
  | EmptyString => ("", None)
  | String c r =>
      if bool_decide (c = "="%char) then ("", Some r)
      else let '(a, v) := split_eq r in (String c a, v)
  end.

(** One cluster of short options, the characters after its [-]. *)
Inductive cluster_result : Type :=
| CDone (o : Options)
| CNeed (o : Options) (k : opt_id) (c : ascii)
| CHelp
| CError (msg : string).

(** The loop of [_process_short_opts]. *)
Fixpoint cluster (o : Options) (s : string) : cluster_result :=
  match s with
  | EmptyString => CDone o
  | String c r =>
      match short_opt c with
      | None => CError ("no such option: -" +:+ String c "")
      | Some OHelp => CHelp
      | Some k =>
          if takes_value k then
            (if bool_decide (r = "") then CNeed o k c else CDone (set_opt k r o))
          else cluster (set_opt k "" o) r
      end
  end.

(** [_process_args]: [largs] the positional arguments so far, [rargs]
    the arguments left. *)
Fixpoint process_args (o : Options) (largs rargs : list string) : parse_result :=
  match rargs with
  | [] => PArgs o largs
  | arg :: rest =>
      if bool_decide (arg = "--") then PArgs o (largs ++ rest)
      else if Py.startswith arg "--" then
        let '(opt, explicit) := split_eq arg in
        match match_long opt with
        | inr msg => PError msg
        | inl (full, k) =>
            if takes_value k then
              match explicit with
              | Some v => process_args (set_opt k v o) largs rest
              | None =>
                  match rest with
                  | v :: rest' => process_args (set_opt k v o) largs rest'
                  | [] => PError (full +:+ " option requires an argument")
                  end
              end
            else match explicit with
                 | Some _ => PError (full +:+ " option does not take a value")
                 | None => if bool_decide (k = OHelp) then PHelp
                           else process_args (set_opt k "" o) largs rest
                 end
        end
      else if Py.startswith arg "-" && bool_decide (1 < String.length arg) then
        match arg with
        | String _ body =>
            match cluster o body with
            | CDone o' => process_args o' largs rest
            | CNeed o' k c' =>
                match rest with
                | v :: rest' => process_args (set_opt k v o') largs rest'
                | [] => PError ("-" +:+ String c' "" +:+ " option requires an argument")
                end
            | CHelp => PHelp
            | CError msg => PError msg
            end
        | EmptyString => process_args o (largs ++ [arg]) rest
        end
      else process_args o (largs ++ [arg]) rest
  end.

(** [(options, args) = parser.parse_args()] on [sys.argv[1:]]. *)
Definition parse_args (argv : list string) : parse_result :=
  process_args default_options [] argv.

(** ** Lemmas *)

(** A cluster of flags is processed as the flags one by one. *)
Definition is_flag_char (c : ascii) : Prop := c = "m"%char ∨ c = "3"%char ∨ c = "n"%char.

Definition flag_of (c : ascii) : opt_id :=
  if bool_decide (c = "m"%char) then OMarkdown else if bool_decide (c = "3"%char) then OMp3 else ONoDownload.

Lemma cluster_flag o c body :
  is_flag_char c → cluster o (String c body) = cluster (set_opt (flag_of c) "" o) body.
Proof.
  intros [->|[->| ->]]; reflexivity.
Qed.

(** One step of [_process_args] on a cluster [-c...] with [c] not [-]. *)
Lemma process_args_cluster o largs c body rest :
  c ≠ "-"%char →
  process_args o largs (String "-" (String c body) :: rest) =
  match cluster o (String c body) with
  | CDone o' => process_args o' largs rest
  | CNeed o' k c' =>
      match rest with
      | v :: rest' => process_args (set_opt k v o') largs rest'
      | [] => PError ("-" +:+ String c' "" +:+ " option requires an argument")
      end
  | CHelp => PHelp
  | CError msg => PError msg
  end.
Proof.
  intros Hc. cbn [process_args].
  rewrite bool_decide_false by (intros Heq; injection Heq as Hc1; done).
  assert (Py.startswith (String "-" (String c body)) "--" = false) as ->.
  { unfold Py.startswith. cbn [String.prefix].
    destruct (Ascii.ascii_dec "-"%char "-"%char) as [_|]; [|done]. cbn [String.prefix].
    destruct (Ascii.ascii_dec "-"%char c) as [E|]; [exfalso; apply Hc; by symmetry|done]. }
  assert (Py.startswith (String "-" (String c body)) "-" = true) as -> by
    (unfold Py.startswith; cbn [String.prefix]; by destruct (Ascii.ascii_dec "-"%char "-"%char)).
  rewrite bool_decide_true by (simpl; lia). reflexivity.
Qed.

Lemma flag_char_not_dash c : is_flag_char c → c ≠ "-"%char.
Proof. by intros [->|[->| ->]]. Qed.

(** ** Properties *)

(** C31: a cluster of flags ([-m3n]) is processed exactly as the same
    flags given one by one ([-m -3 -n]). *)
Theorem flag_cluster_split o largs c cs rest :
  is_flag_char c → Forall is_flag_char cs →
  process_args o largs (String "-" (String c (String.string_of_list_ascii cs)) :: rest) =
  process_args o largs (map (λ x, String "-" (String x "")) (c :: cs) ++ rest).
Proof.
  revert o c. induction cs as [|d cs IH]; intros o c Hc Hcs.
  - reflexivity.
  - apply Forall_cons in Hcs as [Hd Hcs]. cbn [map app String.string_of_list_ascii].
    rewrite !process_args_cluster by (by apply flag_char_not_dash).
    rewrite !cluster_flag by done. cbn [cluster].
    rewrite <- (IH _ d Hd Hcs), process_args_cluster by (by apply flag_char_not_dash).
    by rewrite cluster_flag.
Qed.

Lemma flag_cluster_split_witness :
  process_args default_options [] ("-m3n" :: ["x"]) = process_args default_options [] ["-m"; "-3"; "-n"; "x"].
Proof.
  apply (flag_cluster_split default_options [] "m"%char ["3"%char; "n"%char] ["x"]);
    [left; done|constructor; [right; left; done|constructor; [right; right; done|constructor]]].
Defined.

(** The value options: short letter, long name, option. *)
Definition value_opts : list (ascii * string * opt_id) :=
  [("t"%char, "--tag", OTag); ("f"%char, "--file", OFile); ("d"%char, "--destination", ODest)].

(** C32: the four ways optparse accepts a value for [-t], [-f] or [-d]
    are equivalent: [-d V], [-dV] (V not empty), [--destination=V],
    [--destination V], and an unambiguous prefix [--dest V]. *)
Theorem value_forms_equiv o largs c ln k v rest :
  (c, ln, k) ∈ value_opts →
  process_args o largs (String "-" (String c "") :: v :: rest) = process_args (set_opt k v o) largs rest ∧
  process_args o largs ((ln +:+ String "=" v) :: rest) = process_args (set_opt k v o) largs rest ∧
  process_args o largs (ln :: v :: rest) = process_args (set_opt k v o) largs rest ∧
  (v ≠ "" → process_args o largs (String "-" (String c v) :: rest) = process_args (set_opt k v o) largs rest).
Proof.
  intros Hin. unfold value_opts in Hin.
  repeat (apply elem_of_cons in Hin as [Hin|Hin]; [injection Hin as -> -> ->|]);
    [..|by apply elem_of_nil in Hin];
    (split_and!; [reflexivity|reflexivity|reflexivity|]);
    intros Hv; rewrite process_args_cluster by done; cbn [cluster];
    rewrite bool_decide_false by done; reflexivity.
Qed.

Lemma value_forms_equiv_witness :
  process_args default_options [] ["-d"; "/b"] = process_args (set_opt ODest "/b" default_options) [] [] ∧
  process_args default_options [] (("--destination" +:+ String "=" "/b") :: []) =
    process_args (set_opt ODest "/b" default_options) [] [] ∧
  process_args default_options [] ["--destination"; "/b"] =
    process_args (set_opt ODest "/b" default_options) [] [] ∧
  ("/b" ≠ "" → process_args default_options [] ["-d/b"] =
    process_args (set_opt ODest "/b" default_options) [] []).
Proof. apply (value_forms_equiv default_options [] "d"%char "--destination" ODest "/b" []). list_mem. Defined.

(** C33: the errors of [parser.error] (exit status 2), for any values
    and positional arguments so far, the arguments after the error
    unread: a short option that is not one of the parser's is refused;
    a value option given last, short or long, lacks its value; a long
    flag given a value with [=] is refused. *)
Theorem parse_errors o largs rest :
  (∀ c body, c ≠ "-"%char → short_opt c = None →
     process_args o largs (String "-" (String c body) :: rest) =
     PError ("no such option: -" +:+ String c "")) ∧
  (∀ c ln k, (c, ln, k) ∈ value_opts →
     process_args o largs [String "-" (String c "")] =
       PError ("-" +:+ String c "" +:+ " option requires an argument") ∧
     process_args o largs [ln] = PError (ln +:+ " option requires an argument")) ∧
  (∀ ln k v, (ln, k) ∈ long_opts → takes_value k = false →
     process_args o largs ((ln +:+ String "=" v) :: rest) =
     PError (ln +:+ " option does not take a value")).
Proof.
  split_and!.
  - intros c body Hc Hs. rewrite process_args_cluster by done. cbn [cluster]. by rewrite Hs.
  - intros c ln k Hin. unfold value_opts in Hin.
    repeat (apply elem_of_cons in Hin as [Hin|Hin]; [injection Hin as -> -> ->; split; reflexivity|]).
    by apply elem_of_nil in Hin.
  - intros ln k v Hin Hk. unfold long_opts in Hin.
    repeat (apply elem_of_cons in Hin as [Hin|Hin]; [injection Hin as -> ->; first [discriminate | reflexivity]|]).
    by apply elem_of_nil in Hin.
Qed.

Lemma parse_errors_witness :
  process_args default_options [] ["-x"; "a"] = PError ("no such option: -" +:+ String "x" "") ∧
  process_args default_options [] ["-t"] = PError ("-" +:+ String "t" "" +:+ " option requires an argument") ∧
  process_args default_options [] ["--destination"] = PError ("--destination" +:+ " option requires an argument") ∧
  process_args default_options [] [("--markdown" +:+ String "=" "yes"); "a"] =
    PError ("--markdown" +:+ " option does not take a value").
Proof.
  destruct (parse_errors default_options [] ["a"]) as (E1 & _ & E3).
  destruct (parse_errors default_options [] []) as (_ & E2 & _).
  destruct (E2 "t"%char "--tag" OTag) as [E2t _]; [list_mem|].
  destruct (E2 "d"%char "--destination" ODest) as [_ E2d]; [list_mem|].
  split_and!; [apply E1; vm_compute; congruence|exact E2t|exact E2d|].
  apply (E3 "--markdown" OMarkdown "yes"); [list_mem|reflexivity].
Defined.
