(* ===== verification/Link.v ===== *)
(** * Link: the [Link] namedtuple and [get_link_list]

    Lines 20 and 95-142 of [bookmarks-fetcher.py].  BeautifulSoup's
    [find_all(["dt", "dd"])] (line 373) yields the sequence of [<DT>] and
    [<DD>] nodes of the export; that sequence is the input here.  A [<DT>]
    node carries the anchor [find('a')] returns (or none), with its
    attribute dictionary and its children; a [<DD>] node its children.
    Children are modelled by their text. *)

From S2P Require Import Prelude Helpers.

(** [Link = namedtuple("Link", "add_date href private tags title
    description is_magnet")] (line 20). *)
Record Link : Type := mkLink {
  add_date : string;
  href : string;
  private : bool;
  tags : list string;
  title : string;
  description : string;
  is_magnet : bool
}.

(** The anchor [<A ...>] inside a [<DT>]: its attributes, a dict, and
    [contents], its children. *)
Record Anchor : Type := mkAnchor {
  attrs : gmap string string;
  contents : list string
}.

Inductive Node : Type :=
| DT (subtag : option Anchor)
| DD (dd_contents : list string).

Definition node_name (n : Node) : string :=
  match n with DT _ => "dt" | DD _ => "dd" end.

(** [subtag[k]]: [KeyError] for a missing attribute. *)
Definition attr (a : Anchor) (k : string) : outcome string :=
  match attrs a !! k with Some v => Ok v | None => Raise KeyError end.

(** [subtag.has_attr(k)] *)
Definition has_attr (a : Anchor) (k : string) : bool :=
  bool_decide (is_Some (attrs a !! k)).

(** [getlinktags] (lines 95-104), on an anchor: [link.get('tags')]. *)
Definition getlinktags (link : Anchor) : list string :=
  match attrs link !! "tags" with
  | None => []
  | Some linktags => Py.split "," linktags
  end.

(** The body of the loop of [get_link_list] for a [<DT>] node, once
    [desc] is known (lines 119-130), arguments evaluated left to right.
    [find('a')] returning [None] makes [subtag.has_attr] raise. *)
Definition make_link (sub : option Anchor) (desc : string) : outcome Link :=
  match sub with
  | None => Raise AttributeError
  | Some subtag =>
      tags_as_list ← (if has_attr subtag "tags"
                      then t ← attr subtag "tags"; mret (Py.split "," t)
                      else mret []);
      ad ← attr subtag "add_date";
      h ← attr subtag "href";
      p ← attr subtag "private";
      ti ← Py.index (contents subtag) 0;
      h' ← attr subtag "href";
      mret (mkLink ad h (bool_decide (p = "1")) tags_as_list ti desc
              (Py.startswith h' "magnet:"))
  end.

(** [get_link_list] (lines 106-132): [<DD>] nodes are skipped, a [<DT>]
    takes the first child of the [<DD>] right after it as description. *)
Fixpoint get_link_list (links : list Node) : outcome (list Link) :=
  match links with
  | [] => mret []
  | DD _ :: rest => get_link_list rest
  | DT sub :: rest =>
      desc ← (match rest with
              | DD cs :: _ => Py.index cs 0
              | _ => mret ""
              end);
      item ← make_link sub desc;
      items ← get_link_list rest;
      mret (item :: items)
  end.

(** [get_all_tags] (lines 135-142): the union of the links' tags.  The
    program returns [list(set(...))], whose order is CPython's set order;
    the model keeps the set. *)
Definition get_all_tags (alllinks : list Link) : gset string :=
  foldl (λ alltags link, alltags ∪ list_to_set (tags link)) ∅ alllinks.

(** ** Lemmas *)

(** The number of [<DT>] nodes. *)
Fixpoint count_dt (links : list Node) : nat :=
  match links with
  | [] => 0
  | DT _ :: rest => S (count_dt rest)
  | DD _ :: rest => count_dt rest
  end.

(** The well-formedness [get_link_list] needs of its input: every anchor
    exists, has [add_date], [href], [private] and a child, and every
    [<DD>] that follows a [<DT>] has a child. *)
Definition anchor_ok (a : Anchor) : Prop :=
  is_Some (attrs a !! "add_date") ∧ is_Some (attrs a !! "href") ∧
  is_Some (attrs a !! "private") ∧ contents a ≠ [].

Fixpoint nodes_ok (links : list Node) : Prop :=
  match links with
  | [] => True
  | DD _ :: rest => nodes_ok rest
  | DT sub :: rest =>
      (∃ a, sub = Some a ∧ anchor_ok a) ∧
      (match rest with DD cs :: _ => cs ≠ [] | _ => True end) ∧
      nodes_ok rest
  end.

Lemma make_link_ok sub desc :
  (∃ a, sub = Some a ∧ anchor_ok a) →
  ∃ l, make_link sub desc = Ok l ∧ is_magnet l = Py.startswith (href l) "magnet:".
Proof.
  intros (a & -> & [ad Had] & [h Hh] & [p Hp] & Hc).
  destruct (contents a) as [|ti cs] eqn:Ec; [done|].
  unfold make_link, attr, Py.index, has_attr. rewrite Had, Hh, Hp, Ec.
  destruct (attrs a !! "tags"); simpl; eauto.
Qed.

Lemma make_link_magnet sub desc l :
  make_link sub desc = Ok l → is_magnet l = Py.startswith (href l) "magnet:".
Proof.
  unfold make_link. destruct sub as [a|]; [|done]. unfold attr.
  destruct (has_attr a "tags"), (attrs a !! "tags"), (attrs a !! "add_date"),
    (attrs a !! "href"), (attrs a !! "private"), (Py.index (contents a) 0);
    simpl; intros Hl; try discriminate Hl; injection Hl as <-; done.
Qed.

Lemma get_link_list_desc_ok (rest : list Node) :
  (match rest with DD cs :: _ => cs ≠ [] | _ => True end) →
  ∃ d, (match rest with DD cs :: _ => Py.index cs 0 | _ => mret "" end) = Ok d.
Proof.
  destruct rest as [|[sub|[|c cs]] rest]; simpl; eauto; done.
Qed.

(** C14: [get_link_list] terminates without raising on every
    well-formed node list and returns one link per [<DT>] node. *)
Theorem get_link_list_total (links : list Node) :
  nodes_ok links →
  ∃ ls, get_link_list links = Ok ls ∧ length ls = count_dt links.
Proof.
  induction links as [|[sub|cs] rest IH]; simpl; [by eauto|intros (Ha & Hd & Hr)|done].
  destruct (get_link_list_desc_ok rest Hd) as [d ->]. simpl.
  destruct (make_link_ok sub d Ha) as (l & -> & _).
  destruct (IH Hr) as (ls & -> & Hlen). simpl. eexists; split; [done|].
  simpl. by rewrite Hlen.
Qed.

(** Every link [get_link_list] returns has [is_magnet] equal to
    [href.startswith("magnet:")]: the flag is derived from the URL. *)
Lemma get_link_list_magnet (links : list Node) ls :
  get_link_list links = Ok ls →
  Forall (λ l, is_magnet l = Py.startswith (href l) "magnet:") ls.
Proof.
  revert ls. induction links as [|[sub|cs] rest IH]; intros ls H; simpl in H.
  - outcome_inv. constructor.
  - outcome_inv. constructor; [by eapply make_link_magnet|by apply IH].
  - by apply IH.
Qed.

(** The tags of a link are the [TAGS] attribute split on commas. *)
Lemma make_link_tags a desc l :
  make_link (Some a) desc = Ok l →
  tags l = match attrs a !! "tags" with Some t => Py.split "," t | None => [] end.
Proof.
  unfold make_link, has_attr, attr. intros H. outcome_inv; simplify_eq/=;
    repeat case_match; simplify_eq/=; try done.
  all: match goal with H : bool_decide _ = _ |- _ =>
         first [apply bool_decide_eq_true in H | apply bool_decide_eq_false in H] end;
       naive_solver.
Qed.

Lemma get_all_tags_foldl x (acc : gset string) ls :
  x ∈ foldl (λ alltags link, alltags ∪ list_to_set (tags link)) acc ls ↔
  x ∈ acc ∨ ∃ l, l ∈ ls ∧ x ∈ tags l.
Proof.
  revert acc. induction ls as [|l ls IH]; intros acc; simpl.
  - set_solver.
  - rewrite IH. set_solver.
Qed.

(** C15: the tag list of the markdown header is the union of the links'
    tags: a tag is in it exactly when some link carries it. *)
Theorem get_all_tags_spec x ls :
  x ∈ get_all_tags ls ↔ ∃ l, l ∈ ls ∧ x ∈ tags l.
Proof. unfold get_all_tags. rewrite get_all_tags_foldl. set_solver. Qed.

(** C16: the link's tags are the pieces of the [TAGS] attribute between
    commas: none contains a comma, joining them with commas gives the
    attribute back, and an empty attribute gives the list [[""]], one
    empty tag (never the empty list). *)
Theorem link_tags_roundtrip a desc l t :
  make_link (Some a) desc = Ok l → attrs a !! "tags" = Some t →
  Forall (λ x, Py.has_char ","%char x = false) (tags l) ∧ Py.join "," (tags l) = t ∧
  (t = "" → tags l = [""]).
Proof.
  intros Hl Ht. rewrite (make_link_tags a desc l Hl), Ht. split_and!.
  - apply split_pieces_no_sep.
  - apply (join_split ","%char).
  - by intros ->.
Qed.

Lemma get_link_list_total_witness :
  ∃ ls, get_link_list
    [DT (Some (mkAnchor (<["add_date" := "1400000000"]> (<["href" := "http://a/"]>
                          (<["private" := "0"]> (<["tags" := "video,doc"]> ∅)))) ["A"]));
     DD ["about a"]] = Ok ls ∧
  length ls = count_dt
    [DT (Some (mkAnchor (<["add_date" := "1400000000"]> (<["href" := "http://a/"]>
                          (<["private" := "0"]> (<["tags" := "video,doc"]> ∅)))) ["A"]));
     DD ["about a"]].
Proof.
  apply get_link_list_total. simpl. split_and!; [|discriminate|done].
  eexists. split; [reflexivity|]. unfold anchor_ok. simpl.
  split_and!; [eexists; reflexivity..|discriminate].
Defined.

Lemma link_tags_roundtrip_witness :
  make_link (Some (mkAnchor (<["add_date" := "1"]> (<["href" := "http://a/"]>
                   (<["private" := "0"]> (<["tags" := ""]> ∅)))) ["A"])) ""
  = Ok (mkLink "1" "http://a/" false [""] "A" "" false) ∧
  (Forall (λ x, Py.has_char ","%char x = false) [""] ∧ Py.join "," [""] = "" ∧ ("" = "" → [""] = [""])).
Proof.
  split; [reflexivity|].
  apply (link_tags_roundtrip
    (mkAnchor (<["add_date" := "1"]> (<["href" := "http://a/"]>
                   (<["private" := "0"]> (<["tags" := ""]> ∅)))) ["A"]) ""
    (mkLink "1" "http://a/" false [""] "A" "" false)); reflexivity.
Defined.
