(* ===== verification/Magnet.v ===== *)
(** * Magnet: the hash extraction of [download_page] (line 183)

    [matches = re.findall("xt=.*:([^&]*" ")", link.href)] with Python's
    backtracking [re]: a match starts at the leftmost position where
    [xt=] occurs and is followed, on the same line ([.] does not match a
    newline), by a colon; the greedy [.*] then takes the LAST colon of
    that line; the group [[^&]*] takes every character up to the next
    [&] (newlines included).  [findall] resumes after the end of each
    match; the program reads [matches[0]], the first group.

    [after_last_colon], [match_at], [findall] and [search] are executable;
    [findall] runs on fuel [length s + 1], enough since each step
    consumes a character ([findall_fuel_enough]). *)

From S2P Require Import Prelude Helpers.

Module Magnet.

(** [[^&]*]: the group and what follows it. *)
Fixpoint take_until_amp (s : string) : string :=
  match s with
  | EmptyString => EmptyString
  | String c r => if decide (c = "&"%char) then EmptyString else String c (take_until_amp r)
  end.

Fixpoint drop_until_amp (s : string) : string :=
  match s with
  | EmptyString => EmptyString
  | String c r => if decide (c = "&"%char) then s else drop_until_amp r
  end.

(** [.*:] after [xt=]: the text after the last colon before the first
    newline, if there is such a colon. *)
Fixpoint after_last_colon (t : string) : option string :=
  match t with
  | EmptyString => None
  | String c r =>
      if decide (c = nl) then None
      else match after_last_colon r with
           | Some g => Some g
           | None => if decide (c = ":"%char) then Some r else None
           end
  end.

(** A match attempt at the start of [s]: the group and the text after
    the match. *)
Definition match_at (s : string) : option (string * string) :=
  match s with
  | String x (String t (String e r)) =>
      if bool_decide (x = "x"%char ∧ t = "t"%char ∧ e = "="%char) then
        match after_last_colon r with
        | Some after => Some (take_until_amp after, drop_until_amp after)
        | None => None
        end
      else None
  | _ => None
  end.

(** [re.findall]: scan left to right, resume after each match. *)
Fixpoint findall_fuel (fuel : nat) (s : string) : list string :=
  match fuel with
  | O => []
  | S f =>
      match s with
      | EmptyString => []
      | String _ r =>
          match match_at s with
          | Some (g, rest) => g :: findall_fuel f rest
          | None => findall_fuel f r
          end
      end
  end.

Definition findall (s : string) : list string :=
  findall_fuel (S (String.length s)) s.

(** The leftmost match's group: [matches[0]] when [matches] is not
    empty. *)
Fixpoint search (s : string) : option string :=
  match s with
  | EmptyString => None
  | String _ r =>
      match match_at s with
      | Some (g, _) => Some g
      | None => search r
      end
  end.

End Magnet.

(** ** Lemmas *)

Import Magnet.

Lemma drop_until_amp_length s : String.length (drop_until_amp s) ≤ String.length s.
Proof. induction s as [|c r IH]; simpl; [lia|]. case_decide; simpl; lia. Qed.

Lemma after_last_colon_length t g :
  after_last_colon t = Some g → String.length g < String.length t.
Proof.
  revert g. induction t as [|c r IH]; intros g; simpl; [done|].
  case_decide; [done|].
  destruct (after_last_colon r) as [g'|] eqn:E.
  - intros [= <-]. specialize (IH _ eq_refl). lia.
  - case_decide; [intros [= <-]; lia|done].
Qed.

Lemma match_at_length s g rest :
  match_at s = Some (g, rest) → String.length rest < String.length s.
Proof.
  unfold match_at. destruct s as [|x [|t [|e r]]]; try done.
  case_bool_decide; [|done].
  destruct (after_last_colon r) as [after|] eqn:E; [|done].
  intros [= <- <-]. apply after_last_colon_length in E.
  pose proof (drop_until_amp_length after). simpl. lia.
Qed.

(** The fuel of [findall] is enough: any two fuels above the length of
    the input give the same matches, since each step consumes at least
    one character. *)
Lemma findall_fuel_enough n m s :
  String.length s < n → String.length s < m →
  findall_fuel n s = findall_fuel m s.
Proof.
  revert m s. induction n as [|n IH]; intros [|m] s Hn Hm; simpl; try lia.
  destruct s as [|c r]; [done|].
  destruct (match_at (String c r)) as [[g rest]|] eqn:E.
  - apply match_at_length in E. f_equal. apply IH; lia.
  - simpl in Hn, Hm. apply IH; lia.
Qed.

(** The first element of [findall] is the leftmost match's group. *)
Lemma findall_fuel_head n s :
  String.length s < n → head (findall_fuel n s) = search s.
Proof.
  revert n. induction s as [|c r IH]; intros [|n] Hn;
    cbn [findall_fuel search String.length] in *; try (reflexivity || lia).
  destruct (match_at (String c r)) as [[g rest]|]; [reflexivity|]. apply IH. lia.
Qed.

Lemma findall_head s : head (findall s) = search s.
Proof. apply findall_fuel_head. lia. Qed.

Lemma findall_nil s : findall s = [] ↔ search s = None.
Proof.
  rewrite <- findall_head. destruct (findall s); simpl; naive_solver.
Qed.

Lemma match_at_not_x c s : c ≠ "x"%char → match_at (String c s) = None.
Proof.
  intros Hc. unfold match_at. destruct s as [|t [|e r]]; [done|done|].
  rewrite bool_decide_false; naive_solver.
Qed.

Lemma search_cons_not_x c s : c ≠ "x"%char → search (String c s) = search s.
Proof. intros Hc. cbn [search]. by rewrite match_at_not_x. Qed.

Lemma after_last_colon_none b :
  Py.has_char ":"%char b = false → after_last_colon b = None.
Proof.
  induction b as [|c r IH]; intros Hb; [done|].
  apply has_char_cons_false in Hb as [Hc Hr]. simpl. rewrite IH by done.
  case_decide; [done|]. by rewrite decide_False.
Qed.

(** The greedy [.*]: the group starts after the last colon of the line. *)
Lemma after_last_colon_app a b :
  Py.has_char nl a = false → after_last_colon b = None →
  after_last_colon (a +:+ String ":" b) = Some b.
Proof.
  intros Ha Hb. induction a as [|c a IH].
  - rewrite string_app_nil_l. simpl. by rewrite Hb.
  - apply has_char_cons_false in Ha as [Hc Ha].
    rewrite string_app_cons. simpl. rewrite decide_False by done.
    by rewrite IH.
Qed.

Lemma search_no_colon t : Py.has_char ":"%char t = false → search t = None.
Proof.
  induction t as [|c r IH]; intros Ht; [done|].
  apply has_char_cons_false in Ht as [_ Hr]. cbn [search].
  rewrite IH by done. unfold match_at.
  destruct r as [|t' [|e r']]; [done|done|].
  case_bool_decide; [|done].
  apply has_char_cons_false in Hr as [_ Hr]. apply has_char_cons_false in Hr as [_ Hr].
  by rewrite after_last_colon_none.
Qed.

Lemma take_until_amp_app h r :
  Py.has_char "&"%char h = false → take_until_amp (h +:+ String "&" r) = h.
Proof.
  induction h as [|c h IH]; intros Hh.
  - done.
  - apply has_char_cons_false in Hh as [Hc Hh].
    rewrite string_app_cons. simpl. rewrite decide_False by done.
    by rewrite IH.
Qed.

Lemma take_until_amp_no_amp h :
  Py.has_char "&"%char h = false → take_until_amp h = h.
Proof.
  induction h as [|c h IH]; intros Hh; [done|].
  apply has_char_cons_false in Hh as [Hc Hh]. simpl.
  rewrite decide_False by done. by rewrite IH.
Qed.

(** [matches[0]] of line 189: the leftmost group, or [IndexError]. *)
Lemma index_findall s :
  Py.index (findall s) 0 = match search s with Some g => Ok g | None => Raise IndexError end.
Proof.
  rewrite <- findall_head. unfold Py.index. by destruct (findall s).
Qed.

Lemma findall_length_0 s : bool_decide (length (findall s) = 0) = bool_decide (search s = None).
Proof.
  apply bool_decide_ext. rewrite <- findall_nil. by destruct (findall s).
Qed.

Lemma search_prefix_no_x p s : Py.has_char "x"%char p = false → search (p +:+ s) = search s.
Proof.
  induction p as [|c p IH]; intros Hp; [done|].
  apply has_char_cons_false in Hp as [Hc Hp].
  rewrite string_app_cons, search_cons_not_x by done. by apply IH.
Qed.

(** The leftmost [xt=] after a prefix without [x]: the group is what
    follows the last colon of the rest of the line, up to [&]. *)
Lemma search_xt_last_colon s p a g :
  s = p +:+ "xt=" +:+ a +:+ String ":" g →
  Py.has_char "x"%char p = false → Py.has_char nl a = false → Py.has_char ":"%char g = false →
  search s = Some (take_until_amp g).
Proof.
  intros -> Hp Ha Hg. rewrite search_prefix_no_x by done.
  rewrite !string_app_cons, string_app_nil_l. cbn [search match_at].
  by rewrite after_last_colon_app by (done || by apply after_last_colon_none).
Qed.

(** ** Properties *)

(** C6: for a BitTorrent magnet URI [magnet:?xt=urn:btih:H&...] whose
    parameters after the hash contain no colon, the hash the program
    saves is [H] (the spec's example
    [magnet:?xt=urn:btih:ABCD1234&dn=test] gives [ABCD1234]). *)
Theorem magnet_hash_btih h r :
  Py.has_char ":"%char h = false → Py.has_char "&"%char h = false →
  Py.has_char ":"%char r = false →
  Magnet.search ("magnet:?xt=urn:btih:" +:+ h +:+ String "&" r) = Some h.
Proof.
  intros Hh Ha Hr. rewrite (search_xt_last_colon _ "magnet:?" "urn:btih" (h +:+ String "&" r)).
  - by rewrite take_until_amp_app.
  - reflexivity.
  - reflexivity.
  - reflexivity.
  - apply has_char_app_false. split; [done|]. by apply has_char_cons_false.
Qed.

Lemma magnet_hash_btih_witness :
  Magnet.search ("magnet:?xt=urn:btih:" +:+ "ABCD1234" +:+ String "&" "dn=test") = Some "ABCD1234".
Proof. apply magnet_hash_btih; reflexivity. Defined.

(** C7: the greedy [.*] of the pattern takes the LAST colon of the
    line: when a later parameter holds a colon, as a tracker URL with a
    port does, the saved "hash" is the text after that colon, not the
    info-hash. *)
Theorem magnet_hash_tracker_port h tr port :
  Py.has_char nl h = false → Py.has_char nl tr = false →
  Py.has_char ":"%char port = false → Py.has_char "&"%char port = false →
  Magnet.search ("magnet:?xt=urn:btih:" +:+ h +:+ "&tr=" +:+ tr +:+ String ":" port) = Some port.
Proof.
  intros Hh Ht Hp Ha.
  rewrite (search_xt_last_colon _ "magnet:?" ("urn:btih:" +:+ h +:+ "&tr=" +:+ tr) port).
  - by rewrite take_until_amp_no_amp.
  - by rewrite <- !string_app_assoc.
  - reflexivity.
  - rewrite !has_char_app_false. naive_solver.
  - done.
Qed.

Lemma magnet_hash_tracker_port_witness :
  Magnet.search ("magnet:?xt=urn:btih:" +:+ "ABCD" +:+ "&tr=" +:+ "udp://tracker.example.org"
                 +:+ String ":" "6969") = Some "6969".
Proof. apply magnet_hash_tracker_port; reflexivity. Defined.
