(* ===== verification/Ledger.v ===== *)
(** * Ledger: [done.log], the record of fetched URLs

    Lines 366-368 of [bookmarks-fetcher.py] open [done.log] in mode a+
    through [codecs.open] and read it once: [readlines] of a codecs
    reader is [unicode.splitlines(True)] of the whole content, then every
    line loses its ['\n'] characters.  The handlers append [url + "\n"]
    (lines 229 and 256); [match_list([linkurl], downloaded_urls)] (line
    165) is the membership test.

    The class [RunLedger] is the contract of the spec's Run Ledger
    (load, contains, the line a persist appends); [RunLedgerLaws] its
    laws; the [done.log] implementation discharges them, and the
    orchestrator's idempotency theorem is proved from the laws. *)

From S2P Require Import Prelude Helpers.

Module Ledger.

(** [downloaded_urls] after lines 367-368. *)
Definition load (content : string) : list string :=
  map (Py.remove_char nl) (Py.splitlines content).

(** The text [log_done.write(linkurl + "\n")] appends. *)
Definition record_line (url : string) : string := url +:+ NL.

(** [match_list([linkurl], downloaded_urls)] *)
Definition contains (downloaded_urls : list string) (url : string) : bool :=
  match_list [url] downloaded_urls.

(** A URL that can be stored on one line: no line boundary in it. *)
Definition url_ok (u : string) : Prop :=
  Forall (λ c, Py.is_line_boundary c = false) (String.list_ascii_of_string u).

(** A ledger content another line can be appended to: empty, or ended
    by a newline. *)
Definition content_ok (c : string) : Prop := c = "" ∨ ∃ c', c = c' +:+ NL.

End Ledger.

(** ** The spec's Run Ledger contract *)

Class RunLedger (L : Type) := {
  ledger_load : string → L;
  ledger_contains : L → string → bool;
  ledger_line : string → string
}.

Class RunLedgerLaws (L : Type) `{RunLedger L}
    (url_ok : string → Prop) (content_ok : string → Prop) := {
  ledger_load_empty u : ledger_contains (ledger_load "") u = false;
  ledger_persist_ok c u :
    content_ok c → url_ok u → content_ok (c +:+ ledger_line u);
  ledger_persist_contains c u :
    content_ok c → url_ok u → ledger_contains (ledger_load (c +:+ ledger_line u)) u = true;
  ledger_persist_mono c u v :
    content_ok c → url_ok u →
    ledger_contains (ledger_load c) v = true →
    ledger_contains (ledger_load (c +:+ ledger_line u)) v = true
}.

#[export] Instance done_log_ledger : RunLedger (list string) := {|
  ledger_load := Ledger.load;
  ledger_contains := Ledger.contains;
  ledger_line := Ledger.record_line
|}.

(** ** Lemmas *)

Import Ledger.

Lemma splitlines_app_nl_not_nil s : Py.splitlines (s +:+ NL) ≠ [].
Proof.
  destruct s as [|c r]; [done|]. rewrite string_app_cons. simpl.
  repeat case_match; done.
Qed.

(** Lines end at a newline: what follows starts a new line. *)
Lemma splitlines_app_nl s x :
  Py.splitlines (s +:+ String nl x) = Py.splitlines (s +:+ NL) ++ Py.splitlines x.
Proof.
  unfold NL. remember (String.length s) as n eqn:Hn. revert s Hn.
  induction n as [n IH] using lt_wf_ind. intros [|c r] Hn; [done|].
  rewrite !string_app_cons. cbn [Py.splitlines].
  case_decide as Hc.
  - destruct r as [|d r'].
    + rewrite !string_app_nil_l. done.
    + pose proof (IH (String.length (String d r')) ltac:(simpl in *; lia) _ eq_refl) as IH1.
      rewrite !string_app_cons in IH1 |- *. case_decide.
      * simpl. f_equal. apply (IH (String.length r')); simpl in *; [lia|done].
      * simpl. f_equal. exact IH1.
  - destruct (Py.is_line_boundary c).
    + simpl. f_equal. apply (IH (String.length r)); simpl in *; [lia|done].
    + rewrite (IH (String.length r)) by (simpl in *; lia).
      pose proof (splitlines_app_nl_not_nil r) as Hne. unfold NL in Hne.
      by destruct (Py.splitlines (r +:+ String nl "")).
Qed.

Lemma splitlines_content_app c d :
  content_ok c → Py.splitlines (c +:+ d) = Py.splitlines c ++ Py.splitlines d.
Proof.
  intros [->|[c' ->]]; [done|].
  rewrite <- string_app_assoc. unfold NL. rewrite string_app_cons, string_app_nil_l.
  apply splitlines_app_nl.
Qed.

Lemma load_app c d : content_ok c → load (c +:+ d) = load c ++ load d.
Proof. intros Hc. unfold load. by rewrite splitlines_content_app, map_app. Qed.

Lemma url_ok_no_boundary u c :
  url_ok u → Py.is_line_boundary c = true → Py.has_char c u = false.
Proof.
  intros Hu Hc. induction u as [|d r IH]; [done|].
  inversion Hu as [|? ? Hd Hr]; subst. apply has_char_cons_false.
  split; [intros ->; congruence|by apply IH].
Qed.

Lemma load_record_line u : url_ok u → load (record_line u) = [u].
Proof.
  intros Hu. unfold load, record_line.
  unfold NL at 1. rewrite (splitlines_line u "") by done. cbn [map Py.splitlines].
  rewrite remove_char_app. change (Py.remove_char nl NL) with "".
  rewrite string_app_nil_r, remove_char_absent; [done|]. by apply url_ok_no_boundary.
Qed.

Lemma content_ok_record c u : content_ok c → content_ok (c +:+ record_line u).
Proof. intros _. right. exists (c +:+ u). unfold record_line. by rewrite string_app_assoc. Qed.

#[export] Instance done_log_ledger_laws : RunLedgerLaws (list string) url_ok content_ok.
Proof.
  split; simpl.
  - intros u. apply match_list_false. set_solver.
  - intros c u Hc _. by apply content_ok_record.
  - intros c u Hc Hu. unfold contains. rewrite load_app, load_record_line by done.
    rewrite match_list_singleton_l. apply bool_decide_eq_true. set_solver.
  - intros c u v Hc Hu. unfold contains. rewrite load_app by done.
    rewrite !match_list_singleton_l, !bool_decide_eq_true. set_solver.
Qed.

(** A Windows line end [\r\n] is one boundary: the line keeps it. *)
Lemma splitlines_line_crlf (u rest : string) :
  url_ok u →
  Py.splitlines (u +:+ String cr (String nl rest)) = (u +:+ String cr NL) :: Py.splitlines rest.
Proof.
  induction u as [|c u IH]; intros Hu; unfold url_ok in *; simpl in *.
  - reflexivity.
  - apply Forall_cons in Hu as [Hc Hu].
    rewrite decide_False by (intros ->; done). rewrite Hc, IH by done.
    reflexivity.
Qed.

Lemma string_app_char_neq (u : string) c : u ≠ u +:+ String c "".
Proof.
  induction u as [|d u IH]; [done|]. rewrite string_app_cons.
  intros [= H]. by apply IH.
Qed.

(** ** Properties *)

(** C12: loading a ledger after appending the record lines of URLs
    gives the URLs loaded before, followed by the appended ones, in
    order: what the handlers persist is what the next run reads back. *)
Theorem ledger_roundtrip c us :
  content_ok c → Forall url_ok us →
  Ledger.load (c +:+ concat_strings (map Ledger.record_line us)) = Ledger.load c ++ us.
Proof.
  revert c. induction us as [|u us IH]; intros c Hc Hus; simpl.
  - by rewrite string_app_nil_r, app_nil_r.
  - apply Forall_cons in Hus as [Hu Hus].
    rewrite string_app_assoc, IH by (done || by apply content_ok_record).
    rewrite load_app, load_record_line by done. by rewrite <- app_assoc.
Qed.

Lemma ledger_roundtrip_witness :
  Ledger.load (("http://a/" +:+ NL) +:+ concat_strings (map Ledger.record_line ["http://b/"; "http://c/"]))
  = Ledger.load ("http://a/" +:+ NL) ++ ["http://b/"; "http://c/"].
Proof.
  apply ledger_roundtrip.
  - right. by exists "http://a/".
  - repeat constructor.
Defined.

(** C13: a [done.log] line that ends in [\r\n] (a file edited on
    Windows) loads with its [\r] kept, so the URL is not found and the
    link is fetched again at every run. *)
Theorem ledger_crlf_not_found u :
  url_ok u →
  Ledger.load (u +:+ String cr NL) = [u +:+ String cr ""] ∧
  Ledger.contains (Ledger.load (u +:+ String cr NL)) u = false.
Proof.
  intros Hu. assert (E : Ledger.load (u +:+ String cr NL) = [u +:+ String cr ""]).
  { unfold load, NL. rewrite (splitlines_line_crlf u "") by done. simpl.
    rewrite remove_char_app, remove_char_absent; [done|]. by apply url_ok_no_boundary. }
  split; [done|]. unfold contains. rewrite E, match_list_singleton_l.
  apply bool_decide_eq_false. intros Hin%list_elem_of_singleton. by eapply string_app_char_neq.
Qed.

Lemma ledger_crlf_not_found_witness :
  Ledger.contains (Ledger.load ("http://example.org/" +:+ String cr NL)) "http://example.org/" = false.
Proof. apply ledger_crlf_not_found. repeat constructor. Defined.
