(* ===== verification/Effects.v ===== *)
(** * Effects: the state the program's handlers act on

    The handlers of [bookmarks-fetcher.py] touch: standard output
    ([print]), the run log [shaarchiver-<date>.log] ([log.write], mode
    a+), the ledger [done.log] ([log_done.write], mode a+), the markdown
    summary ([markdown.write]), the magnet files written with
    [open(.., "w+")], and the youtube-dl subprocesses ([call(command)]).
    [World] holds each of them, and the set of existing directories,
    which [open] consults: opening a file whose directory is missing
    raises [IOError].  Appending files hold their content.  The
    magnet paths end in [.magnet], so they never name the log files.

    The external tool is the interface [YtdlTool]: the exit code of the
    [n]-th call on a command.  Theorems quantify over every instance. *)

From S2P Require Import Prelude Helpers Config.

Record World : Type := mkWorld {
  w_dirs : gset string;
  w_stdout : list string;
  w_log : string;
  w_done : string;
  w_markdown : string;
  w_files : gmap string string;
  w_calls : list (list string * Z)
}.

Class YtdlTool := { ytdl_exit : nat → list string → Z }.

(** [print(msg)] *)
Definition print (msg : string) : PyM World unit :=
  modify (λ w, mkWorld (w_dirs w) (w_stdout w ++ [msg]) (w_log w) (w_done w) (w_markdown w)
                 (w_files w) (w_calls w)).

(** [log.write(s)] *)
Definition log_write (s : string) : PyM World unit :=
  modify (λ w, mkWorld (w_dirs w) (w_stdout w) (w_log w +:+ s) (w_done w) (w_markdown w)
                 (w_files w) (w_calls w)).

(** [log_done.write(s)] *)
Definition done_write (s : string) : PyM World unit :=
  modify (λ w, mkWorld (w_dirs w) (w_stdout w) (w_log w) (w_done w +:+ s) (w_markdown w)
                 (w_files w) (w_calls w)).

(** [markdown.write(s)] *)
Definition md_write (s : string) : PyM World unit :=
  modify (λ w, mkWorld (w_dirs w) (w_stdout w) (w_log w) (w_done w) (w_markdown w +:+ s)
                 (w_files w) (w_calls w)).

(** [os.path.dirname(path)] for the paths the program builds: the text
    before the last ['/'] ([""] when there is none, which also stands for
    the root of an absolute path such as ["/x"]). *)
Fixpoint parent_dir (p : string) : string :=
  match p with
  | EmptyString => ""
  | String c r => if Py.has_char "/" r then String c (parent_dir r) else ""
  end.

(** [open(path, "w+")] succeeds when the directory part of [path] exists
    (or is empty) and [path] is not itself a directory; otherwise Python
    raises [IOError] (ENOENT, EISDIR).  Paths are compared as strings. *)
Definition dir_ok (dirs : gset string) (path : string) : Prop :=
  (parent_dir path = "" ∨ parent_dir path ∈ dirs) ∧ path ∉ dirs.

#[export] Instance dir_ok_dec dirs path : Decision (dir_ok dirs path).
Proof. unfold dir_ok. apply _. Defined.

(** [handle = open(path, "w+"); handle.write(content); handle.close()] *)
Definition write_file (path content : string) : PyM World unit :=
  λ w, if bool_decide (dir_ok (w_dirs w) path)
       then (mkWorld (w_dirs w) (w_stdout w) (w_log w) (w_done w) (w_markdown w)
               (<[path := content]> (w_files w)) (w_calls w), Ok ())
       else (w, Raise IOError).

(** [print(msg); log.write(msg + "\n")], the program's usual pair. *)
Definition report (msg : string) : PyM World unit :=
  print msg;; log_write (msg +:+ NL).

(** [call(command)]: runs the tool, returns its exit code. *)
Definition call `{YtdlTool} (command : list string) : PyM World Z :=
  λ w, let rc := ytdl_exit (length (w_calls w)) command in
       (mkWorld (w_dirs w) (w_stdout w) (w_log w) (w_done w) (w_markdown w) (w_files w)
          (w_calls w ++ [(command, rc)]), Ok rc).

(** ** Relations between worlds

    [done_tracks w w']: calls were only added, and [done.log] grew by
    exactly the URLs of the successful ones ([recorded]).
    [calls_only P w w']: calls were only added, each satisfying [P].
    [quiet w w']: neither the calls nor [done.log] changed. *)

Definition calls_added (w w' : World) (new : list (list string * Z)) : Prop :=
  w_calls w' = w_calls w ++ new.

(** What the handlers append to [done.log] for a list of calls, when
    [--no-skip] is off: the URL (last argument) of each successful one. *)
Definition url_of (command : list string) : string := default "" (last command).

Definition recorded (calls : list (list string * Z)) : string :=
  concat_strings (map (λ c, if bool_decide (c.2 = 0%Z) then url_of c.1 +:+ NL else "") calls).

Definition done_tracks (w w' : World) : Prop :=
  ∃ new, calls_added w w' new ∧ w_done w' = w_done w +:+ recorded new.

Definition calls_only (P : list string → Prop) (w w' : World) : Prop :=
  ∃ new, calls_added w w' new ∧ Forall (λ c, P c.1) new.

(** ** Lemmas *)

Lemma call_bind `{YtdlTool} {A} cmd (k : Z → PyM World A) w :
  (call cmd ≫= k) w =
  k (ytdl_exit (length (w_calls w)) cmd)
    (mkWorld (w_dirs w) (w_stdout w) (w_log w) (w_done w) (w_markdown w) (w_files w)
       (w_calls w ++ [(cmd, ytdl_exit (length (w_calls w)) cmd)])).
Proof. reflexivity. Qed.

Lemma recorded_one cmd rc :
  recorded [(cmd, rc)] = if bool_decide (rc = 0%Z) then url_of cmd +:+ NL else "".
Proof. unfold recorded. simpl. by rewrite string_app_nil_r. Qed.

Lemma recorded_app l1 l2 : recorded (l1 ++ l2) = recorded l1 +:+ recorded l2.
Proof. unfold recorded. by rewrite map_app, concat_strings_app. Qed.

#[export] Instance done_tracks_preorder : PreOrder done_tracks.
Proof.
  split.
  - intros w. exists []. split; [(unfold calls_added; rewrite app_nil_r; done)|].
    by rewrite string_app_nil_r.
  - intros w1 w2 w3 (n1 & H1 & D1) (n2 & H2 & D2). exists (n1 ++ n2). split.
    + (unfold calls_added; rewrite H2, H1, app_assoc; done).
    + by rewrite D2, D1, recorded_app, string_app_assoc.
Qed.

#[export] Instance calls_only_preorder P : PreOrder (calls_only P).
Proof.
  split.
  - intros w. exists []. split; [(unfold calls_added; rewrite app_nil_r; done)|constructor].
  - intros w1 w2 w3 (n1 & H1 & F1) (n2 & H2 & F2). exists (n1 ++ n2). split.
    + (unfold calls_added; rewrite H2, H1, app_assoc; done).
    + by apply Forall_app.
Qed.

(** A step that changes neither the calls nor [done.log] is related by
    both relations. *)
Definition quiet (w w' : World) : Prop := w_calls w' = w_calls w ∧ w_done w' = w_done w.

#[export] Instance quiet_preorder : PreOrder quiet.
Proof. split; [done|]. intros w1 w2 w3 [H1 D1] [H2 D2]. split; congruence. Qed.

Lemma quiet_done_tracks w w' : quiet w w' → done_tracks w w'.
Proof.
  intros [Hc Hd]. exists []. split.
  - (unfold calls_added; rewrite Hc, app_nil_r; done).
  - by rewrite Hd, string_app_nil_r.
Qed.

Lemma quiet_calls_only P w w' : quiet w w' → calls_only P w w'.
Proof. intros [Hc _]. exists []. split; [(unfold calls_added; rewrite Hc, app_nil_r; done)|constructor]. Qed.

Lemma print_quiet msg : preserves quiet (print msg).
Proof. intros w. done. Qed.
Lemma log_write_quiet s : preserves quiet (log_write s).
Proof. intros w. done. Qed.
Lemma md_write_quiet s : preserves quiet (md_write s).
Proof. intros w. done. Qed.
Lemma write_file_quiet p c : preserves quiet (write_file p c).
Proof. intros w. unfold write_file. by case_bool_decide. Qed.
Lemma report_quiet msg : preserves quiet (report msg).
Proof. intros w. done. Qed.

Lemma quiet_preserves_done_tracks {A} (c : PyM World A) :
  preserves quiet c → preserves done_tracks c.
Proof. apply preserves_weaken, quiet_done_tracks. Qed.

Lemma quiet_preserves_calls_only {A} P (c : PyM World A) :
  preserves quiet c → preserves (calls_only P) c.
Proof. apply preserves_weaken, quiet_calls_only. Qed.

#[export] Hint Resolve print_quiet log_write_quiet md_write_quiet write_file_quiet
  report_quiet : shaar.
#[export] Hint Resolve quiet_preserves_done_tracks quiet_preserves_calls_only : shaar.

Lemma calls_only_mono (P Q : list string → Prop) w w' :
  (∀ c, P c → Q c) → calls_only P w w' → calls_only Q w w'.
Proof.
  intros HPQ (new & Hn & HF). exists new. split; [done|].
  eapply Forall_impl; [exact HF|]. intros c. apply HPQ.
Qed.

(** ** The outputs only grow

    Standard output, the run log, [done.log] and the markdown summary are
    written by appending (the files are opened in mode [a+] or written in
    sequence), and calls are only added: [appends w w'] says each of
    them in [w] is a prefix of the same in [w']. *)

Definition str_grows (a b : string) : Prop := ∃ s, b = a +:+ s.

Definition appends (w w' : World) : Prop :=
  w_stdout w `prefix_of` w_stdout w' ∧ str_grows (w_log w) (w_log w') ∧
  str_grows (w_done w) (w_done w') ∧ str_grows (w_markdown w) (w_markdown w') ∧
  w_calls w `prefix_of` w_calls w'.

#[export] Instance str_grows_preorder : PreOrder str_grows.
Proof.
  split.
  - intros a. exists "". by rewrite string_app_nil_r.
  - intros a b c [s ->] [t ->]. exists (s +:+ t). by rewrite string_app_assoc.
Qed.

#[export] Instance appends_preorder : PreOrder appends.
Proof.
  split.
  - intros w. split_and!; reflexivity.
  - intros w1 w2 w3 (?&?&?&?&?) (?&?&?&?&?). split_and!; etrans; eauto.
Qed.

Lemma str_grows_app a s : str_grows a (a +:+ s).
Proof. by exists s. Qed.

#[local] Hint Resolve str_grows_app prefix_app_r : core.

Ltac appends_prim := intros w; split_and!; simpl; auto; reflexivity.

Lemma print_appends msg : preserves appends (print msg).
Proof. appends_prim. Qed.
Lemma log_write_appends s : preserves appends (log_write s).
Proof. appends_prim. Qed.
Lemma done_write_appends s : preserves appends (done_write s).
Proof. appends_prim. Qed.
Lemma md_write_appends s : preserves appends (md_write s).
Proof. appends_prim. Qed.
Lemma write_file_appends p c : preserves appends (write_file p c).
Proof. intros w. unfold write_file. case_bool_decide; [split_and!; simpl; auto|]; reflexivity. Qed.
Lemma report_appends msg : preserves appends (report msg).
Proof. unfold report. preserves_tac. all: auto using print_appends, log_write_appends. Qed.
Lemma call_appends `{YtdlTool} cmd : preserves appends (call cmd).
Proof. appends_prim. Qed.

#[export] Hint Resolve print_appends log_write_appends done_write_appends md_write_appends
  write_file_appends report_appends call_appends : shaar.

(** [open(path, "w+")] either writes the file or raises [IOError]
    leaving the world unchanged. *)
Lemma write_file_ok p c w :
  dir_ok (w_dirs w) p →
  write_file p c w = (mkWorld (w_dirs w) (w_stdout w) (w_log w) (w_done w) (w_markdown w)
                        (<[p := c]> (w_files w)) (w_calls w), Ok ()).
Proof. intros Hd. unfold write_file. by rewrite bool_decide_true. Qed.

Lemma write_file_fail p c w :
  ¬ dir_ok (w_dirs w) p → write_file p c w = (w, Raise IOError).
Proof. intros Hd. unfold write_file. by rewrite bool_decide_false. Qed.

(** ** Tools used by the examples: every call exits with [rc]. *)

Definition ytdl_const (rc : Z) : YtdlTool := {| ytdl_exit _ _ := rc |}.
