(* ===== verification/Eligibility.v ===== *)
(** * Eligibility: [check_dl] (lines 148-171)

    [check_dl(linktags, linkurl)] runs an if/elif chain, the first
    failing check wins: the URL is in [url_blacklist]; [options.download
    == False]; the link has the [nodl] tag; [options.usertag] is set and
    [match_list(linktags, options.usertag)] is false; the URL is in
    [downloaded_urls] and [--no-skip] is off.  A refusal prints and logs
    its message.

    [options.usertag] is a string: [set(options.usertag)] is the set of
    its characters, so the filter keeps the links that have a
    one-character tag among those characters.  [check_dl_reason] is the
    chain, [check_dl] the handler; [gate_spec] is the gate of the spec
    (section 4.2) over an abstract configuration, and [check_dl_refines]
    shows the code is that gate for the configuration whose user filter
    is the set of characters of [options.usertag]. *)

From S2P Require Import Prelude Helpers Config Effects.

Inductive skip_reason : Type :=
| Blacklisted
| DownloadsDisabled
| TaggedNodl
| NotRequestedTag
| AlreadyDone.

#[export] Instance skip_reason_eq_dec : EqDecision skip_reason.
Proof. solve_decision. Defined.

(** [options.download == False] *)
Definition downloads_disabled (o : Options) : bool := py_eq_bool (download o) false.

(** The if/elif chain of lines 153-167. *)
Definition check_dl_reason (o : Options) (downloaded_urls : list string)
    (linktags : list string) (linkurl : string) : option skip_reason :=
  if bool_decide (linkurl ∈ url_blacklist) then Some Blacklisted
  else if downloads_disabled o then Some DownloadsDisabled
  else if match_list linktags nodl_tag then Some TaggedNodl
  else if (match usertag_set o with
           | Some t => negb (match_list linktags (Py.chars t))
           | None => false
           end) then Some NotRequestedTag
  else if match_list [linkurl] downloaded_urls && negb (no_skip o) then Some AlreadyDone
  else None.

(** The message of each refusal, as the [%] formatting builds it; the
    [nodl] message formats the list [nodl_tag], whose [str] is ['nodl']. *)
Definition skip_msg (o : Options) (r : skip_reason) (linkurl : string) : string :=
  match r with
  | Blacklisted =>
      "[shaarchiver] Url " +:+ make_unicode linkurl +:+ " is in blacklist. Not downloading item."
  | DownloadsDisabled =>
      "[shaarchiver] Download disabled, not downloading " +:+ make_unicode linkurl
  | TaggedNodl =>
      "[shaarchiver] Link " +:+ make_unicode linkurl +:+ " is tagged ['nodl'] and will not be downloaded."
  | NotRequestedTag =>
      "[shaarchiver] Link " +:+ make_unicode linkurl +:+ " is NOT tagged "
        +:+ default "" (usertag o) +:+ " and will not be downloaded."
  | AlreadyDone =>
      "[shaarchiver] Link " +:+ make_unicode linkurl +:+ " was already downloaded. Skipping."
  end.

(** [check_dl] (lines 148-171). *)
Definition check_dl (o : Options) (downloaded_urls : list string)
    (linktags : list string) (linkurl : string) : PyM World bool :=
  match check_dl_reason o downloaded_urls linktags linkurl with
  | Some r => report (skip_msg o r linkurl);; mret false
  | None => mret true
  end.

(** ** The gate of the spec (section 4.2) *)

Record GateConfig : Type := mkGate {
  g_blacklist : list string;
  g_download_enabled : bool;
  g_nodl : list string;
  g_user_filter : option (list string);
  g_skip_done : bool
}.

Definition gate_spec (g : GateConfig) (ledger tags : list string) (url : string)
    : option skip_reason :=
  if decide (url ∈ g_blacklist g) then Some Blacklisted
  else if negb (g_download_enabled g) then Some DownloadsDisabled
  else if decide (Exists (λ t, t ∈ g_nodl g) tags) then Some TaggedNodl
  else if (match g_user_filter g with
           | Some f => negb (bool_decide (Exists (λ t, t ∈ f) tags))
           | None => false
           end) then Some NotRequestedTag
  else if g_skip_done g && bool_decide (url ∈ ledger) then Some AlreadyDone
  else None.

(** The configuration the code's options amount to. *)
Definition gate_of_options (o : Options) : GateConfig := {|
  g_blacklist := url_blacklist;
  g_download_enabled := negb (downloads_disabled o);
  g_nodl := nodl_tag;
  g_user_filter := Py.chars <$> usertag_set o;
  g_skip_done := negb (no_skip o)
|}.

(** The configuration the spec describes for [-t TAG]: the filter is the
    tag itself. *)
Definition gate_intended (o : Options) : GateConfig := {|
  g_blacklist := url_blacklist;
  g_download_enabled := negb (downloads_disabled o);
  g_nodl := nodl_tag;
  g_user_filter := (λ t, [t]) <$> usertag_set o;
  g_skip_done := negb (no_skip o)
|}.

(** ** Lemmas *)

Lemma match_list_Exists (a b : list string) :
  match_list a b = bool_decide (Exists (λ x, x ∈ b) a).
Proof.
  destruct (bool_decide (Exists _ a)) eqn:E.
  - apply bool_decide_eq_true, Exists_exists in E. apply match_list_spec. naive_solver.
  - apply bool_decide_eq_false in E. apply match_list_false.
    intros x Ha Hb. apply E, Exists_exists. eauto.
Qed.

(** The handler's effect: a refusal prints and logs one line, an
    acceptance leaves the world unchanged; it never raises. *)
Lemma check_dl_run o L tags url w :
  check_dl o L tags url w =
  match check_dl_reason o L tags url with
  | Some r => (final (report (skip_msg o r url)) w, Ok false)
  | None => (w, Ok true)
  end.
Proof. unfold check_dl. by destruct (check_dl_reason o L tags url). Qed.

Lemma check_dl_quiet o L tags url : preserves quiet (check_dl o L tags url).
Proof. unfold check_dl. preserves_tac. Qed.

Lemma check_dl_true o L tags url w w' :
  check_dl o L tags url w = (w', Ok true) → w' = w ∧ check_dl_reason o L tags url = None.
Proof. rewrite check_dl_run. destruct (check_dl_reason o L tags url); naive_solver. Qed.

(** A link passes the gate only if its URL is not in the ledger, or
    [--no-skip] is on. *)
Lemma check_dl_reason_none_not_done o L tags url :
  check_dl_reason o L tags url = None → no_skip o = false → url ∉ L.
Proof.
  unfold check_dl_reason. intros H Hns. rewrite Hns in H.
  repeat (case_match; try done).
  all: rewrite match_list_singleton_l, andb_true_r, bool_decide_eq_false in *; done.
Qed.

Lemma check_dl_appends o L tags url : preserves appends (check_dl o L tags url).
Proof. unfold check_dl. preserves_tac. Qed.

#[export] Hint Resolve check_dl_quiet check_dl_appends : shaar.

(** ** Properties *)

(** C1: a URL of the blacklist is refused with [Blacklisted], whatever
    its tags, the options and the ledger: [check_dl] returns [False],
    makes no call, and prints and logs the blacklist message. *)
Theorem check_dl_blacklisted o L tags url w :
  url ∈ url_blacklist →
  check_dl o L tags url w =
  (mkWorld (w_dirs w) (w_stdout w ++ ["[shaarchiver] Url " +:+ url +:+ " is in blacklist. Not downloading item."])
     (w_log w +:+ (("[shaarchiver] Url " +:+ url +:+ " is in blacklist. Not downloading item.") +:+ NL))
     (w_done w) (w_markdown w) (w_files w) (w_calls w), Ok false).
Proof.
  intros Hb. rewrite check_dl_run. unfold check_dl_reason.
  by rewrite bool_decide_true by done.
Qed.

Lemma check_dl_blacklisted_witness :
  "https://vimeo.com/" ∈ url_blacklist ∧
  check_dl (opts_for "/b" None) [] ["video"] "https://vimeo.com/"
    (mkWorld ∅ [] "" "" "" ∅ []) =
  (mkWorld ∅ ["[shaarchiver] Url https://vimeo.com/ is in blacklist. Not downloading item."]
     ("[shaarchiver] Url https://vimeo.com/ is in blacklist. Not downloading item." +:+ NL)
     "" "" ∅ [], Ok false).
Proof.
  split; [list_mem|].
  apply (check_dl_blacklisted (opts_for "/b" None) [] ["video"] "https://vimeo.com/"
    (mkWorld ∅ [] "" "" "" ∅ [])). list_mem.
Defined.

(** C2: a link tagged [nodl] is refused with [TaggedNodl] even when it
    also carries the tag the user asked for: the [nodl] check comes
    before the user-tag filter. *)
Theorem check_dl_nodl_first o L tags url :
  url ∉ url_blacklist → downloads_disabled o = false → "nodl" ∈ tags →
  check_dl_reason o L tags url = Some TaggedNodl.
Proof.
  intros Hb Hd Hn. unfold check_dl_reason.
  rewrite bool_decide_false by done. rewrite Hd.
  by rewrite (match_list_intro _ _ "nodl") by (done || by left).
Qed.

Lemma check_dl_nodl_first_witness :
  check_dl_reason (opts_for "/b" (Some "v")) [] ["v"; "nodl"] "http://example.org/"
  = Some TaggedNodl ∧
  match_list ["v"; "nodl"] (Py.chars "v") = true.
Proof.
  split; [|vm_compute; reflexivity].
  apply check_dl_nodl_first; [list_mem|reflexivity|list_mem].
Defined.

(** Case on [P], rewriting its [bool_decide] and [decide] forms. *)
Ltac decide_both P :=
  destruct (decide P) as [?|?];
  [ rewrite ?(bool_decide_true P), ?(decide_True (P:=P)) by done
  | rewrite ?(bool_decide_false P), ?(decide_False (P:=P)) by done ].

(** C3: the code's chain is the spec's gate (section 4.2), for the
    configuration whose user filter is [set(options.usertag)], the
    characters of the tag: same checks, same order, same reason. *)
Theorem check_dl_refines_gate o L tags url :
  check_dl_reason o L tags url = gate_spec (gate_of_options o) L tags url.
Proof.
  unfold check_dl_reason, gate_spec, gate_of_options. simpl.
  rewrite match_list_singleton_l, !match_list_Exists.
  destruct (downloads_disabled o), (usertag_set o) as [t|]; simpl; rewrite ?match_list_Exists;
    decide_both (url ∈ url_blacklist); try done;
    decide_both (Exists (λ x, x ∈ nodl_tag) tags); try done;
    try decide_both (Exists (λ x, x ∈ Py.chars t) tags); try done;
    decide_both (url ∈ L); by destruct (no_skip o).
Qed.

(** C4: [options.usertag] is iterated as a string: a user tag of two or
    more characters is never matched by a link tagged with exactly that
    tag, which the spec's gate (filter = the tag) would let through. *)
Theorem usertag_filter_is_chars o L url t :
  usertag_set o = Some t → 2 ≤ String.length t →
  url ∉ url_blacklist → downloads_disabled o = false → t ≠ "nodl" →
  check_dl_reason o L [t] url = Some NotRequestedTag ∧
  gate_spec (gate_intended o) L [t] url ≠ Some NotRequestedTag.
Proof.
  intros Ht Hlen Hb Hd Hn. split.
  - unfold check_dl_reason. rewrite bool_decide_false, Hd, Ht by done.
    rewrite (proj2 (match_list_false _ _)); [rewrite (proj2 (match_list_false _ _)); [done|]|].
    + intros x ->%list_elem_of_singleton Hx.
      apply list_elem_of_In, in_map_iff in Hx as (c & <- & _). simpl in Hlen. lia.
    + intros x ->%list_elem_of_singleton Hx. by apply list_elem_of_singleton in Hx.
  - unfold gate_spec, gate_intended. simpl. rewrite Ht. simpl.
    rewrite decide_False by done. rewrite decide_False.
    + rewrite (bool_decide_true (Exists _ [t])) by (constructor; by apply list_elem_of_singleton).
      rewrite Hd. simpl. case_match; intros Heq; discriminate Heq.
    + intros HE. apply Exists_cons in HE as [Hx|Hx]; [|by inversion Hx].
      by apply list_elem_of_singleton in Hx.
Qed.

Lemma usertag_filter_is_chars_witness :
  check_dl_reason (opts_for "/b" (Some "music")) [] ["music"] "http://example.org/"
  = Some NotRequestedTag.
Proof.
  apply (usertag_filter_is_chars (opts_for "/b" (Some "music")) [] "http://example.org/" "music");
    [reflexivity|simpl; lia|list_mem|reflexivity|discriminate].
Defined.
