(* ===== verification/Dispatch.v ===== *)
(** * Dispatch: [download_page], [download_video], [download_audio]

    Lines 174-260 of [bookmarks-fetcher.py], called in this order for an
    eligible link by the main loop (lines 398-400).  [download_page]
    saves a magnet reference (hash by [Magnet.findall]), or only prints and
    logs what it would do: the page download is a placeholder.
    [download_video] and [download_audio] call youtube-dl when the link
    has a video (audio) tag, and append the URL to [done.log] when the
    call succeeds and [--no-skip] is off.

    The handlers read the global [link] (the loop variable) as well as
    their parameters; the model passes it as the first argument.

    The magnet file is written with [open(.., "w+")], which raises
    [IOError] when its directory is missing ([write_file]); the
    exception is not caught.

    [classify] is the spec's classifier (section 4.1): the page action by
    precedence, a magnet handled regardless of tags (no media fetch),
    and independent video and audio flags otherwise; [dispatch_plan]
    gives the commands it schedules.  [dispatch_refines] shows the
    handlers issue exactly those calls, in that order, where the code
    agrees with the spec; [magnet_video_calls_ytdl] shows where it does
    not. *)

From S2P Require Import Prelude Helpers Config Link Magnet Effects.

Section dispatch.
Context `{YtdlTool}.

(** [options.destdir + "/" + hash + ".magnet"] *)
Definition magnet_path (o : Options) (hash : string) : string :=
  destdir_path o +:+ "/" +:+ hash +:+ ".magnet".

(** [download_page] (lines 174-207).  With no hash, the message is
    printed and logged, [pass] does nothing, and [matches[0]] raises. *)
Definition download_page (o : Options) (link : Link) (linkurl linktitle : string)
    (linktags : list string) : PyM World unit :=
  if is_magnet link then
    let matches := Magnet.findall (href link) in
    (if bool_decide (length matches = 0) then
       report "[shaarchiver] Link appears to be a magnet, but no hash could be found. Not saving it"
     else mret ());;
    hash ← liftO (Py.index matches 0);
    print ("[shaarchiver] Link is a magnet. Saving it to " +:+ hash +:+ ".magnet");;
    write_file (magnet_path o hash) (href link)
  else if match_list linktags force_page_download_for then
    report ("[shaarchiver] Force downloading page for " +:+ linkurl)
  else if match_list linktags download_video_for || match_list linktags download_audio_for then
    print ("[shaarchiver] " +:+ linkurl +:+ " will only be searched for media. Not downloading page")
  else
    report ("[shaarchiver] Simulating page download for " +:+ linkurl).

(** [options.destdir + sub + "[" + ','.join(link.tags) + "]" + ytdl_naming] *)
Definition output_template (o : Options) (sub : string) (link : Link) : string :=
  destdir_path o +:+ sub +:+ "[" +:+ Py.join "," (tags link) +:+ "]" +:+ ytdl_naming.

(** The command lists of lines 222-224, 245-251. *)
Definition video_command (o : Options) (link : Link) (linkurl : string) : list string :=
  ["youtube-dl"] ++ ytdl_args ++
  ["--format"; "best"; "--output"; output_template o "/video/" link; linkurl].

Definition audio_command (o : Options) (link : Link) (linkurl : string) : list string :=
  ["youtube-dl"] ++ ytdl_args ++
  ["--extract-audio"; "--audio-format"; (if py_eq_bool (mp3 o) true then "mp3" else "best");
   "--output"; output_template o "/audio/" link; linkurl].

(** Lines 225-233 and 252-260: run the command, record or report. *)
Definition fetch (o : Options) (command : list string) (linkurl : string) : PyM World unit :=
  retcode ← call command;
  if bool_decide (retcode = 0%Z) then
    (if no_skip o then mret () else done_write (linkurl +:+ NL))
  else report ("[shaarchiver] ERROR Download failed for " +:+ linkurl).

(** [download_video] (lines 214-233). *)
Definition download_video (o : Options) (link : Link) (linkurl : string)
    (linktags : list string) : PyM World unit :=
  if match_list linktags download_video_for then
    report ("[shaarchiver] Downloading video for " +:+ linkurl);;
    fetch o (video_command o link linkurl) linkurl
  else mret ().

(** [download_audio] (lines 236-260). *)
Definition download_audio (o : Options) (link : Link) (linkurl : string)
    (linktags : list string) : PyM World unit :=
  if match_list linktags download_audio_for then
    report ("[shaarchiver] Downloading audio for " +:+ linkurl);;
    fetch o (audio_command o link linkurl) linkurl
  else mret ().

(** Lines 398-400. *)
Definition dispatch (o : Options) (link : Link) : PyM World unit :=
  download_page o link (href link) (title link) (tags link);;
  download_video o link (href link) (tags link);;
  download_audio o link (href link) (tags link).

End dispatch.

(** ** The spec's classifier (section 4.1) *)

Inductive page_action : Type :=
| PMagnet
| PForced
| PMediaOnly
| PSimulated.

Record classification : Type := mkClass {
  c_page : page_action;
  c_video : bool;
  c_audio : bool
}.

Definition classify (link : Link) : classification := {|
  c_page :=
    if is_magnet link then PMagnet
    else if match_list (tags link) force_page_download_for then PForced
    else if match_list (tags link) download_video_for
            || match_list (tags link) download_audio_for then PMediaOnly
    else PSimulated;
  c_video := negb (is_magnet link) && match_list (tags link) download_video_for;
  c_audio := negb (is_magnet link) && match_list (tags link) download_audio_for
|}.

(** The youtube-dl commands a classification schedules, in order. *)
Definition dispatch_plan (o : Options) (link : Link) : list (list string) :=
  (if c_video (classify link) then [video_command o link (href link)] else []) ++
  (if c_audio (classify link) then [audio_command o link (href link)] else []).

(** The magnet files after the page step a classification schedules. *)
Definition page_files (o : Options) (link : Link) (files : gmap string string)
    : gmap string string :=
  match c_page (classify link), Magnet.search (href link) with
  | PMagnet, Some h => <[magnet_path o h := href link]> files
  | _, _ => files
  end.

(** The page step returns unless a magnet has no hash or its file cannot
    be opened. *)
Definition page_writable (o : Options) (link : Link) (w : World) : Prop :=
  is_magnet link = false ∨
  ∃ h, Magnet.search (href link) = Some h ∧ dir_ok (w_dirs w) (magnet_path o h).

(** ** Lemmas *)

Section dispatch_lemmas.
Context `{YtdlTool}.

Lemma url_of_video_command o link u : url_of (video_command o link u) = u.
Proof. reflexivity. Qed.

Lemma url_of_audio_command o link u : url_of (audio_command o link u) = u.
Proof. unfold url_of, audio_command. by destruct (py_eq_bool (mp3 o) true). Qed.

(** A fetch adds one call, and with [--no-skip] off appends its URL to
    [done.log] exactly when it succeeds. *)
Lemma fetch_done_tracks o cmd u :
  no_skip o = false → url_of cmd = u → preserves done_tracks (fetch o cmd u).
Proof.
  intros Hns Hu w. unfold fetch. rewrite call_bind.
  exists [(cmd, ytdl_exit (length (w_calls w)) cmd)].
  rewrite recorded_one, Hu. case_bool_decide; [rewrite Hns|]; simpl.
  - done.
  - split; [done|]. by rewrite string_app_nil_r.
Qed.

Lemma fetch_calls_only o cmd u (P : list string → Prop) :
  P cmd → preserves (calls_only P) (fetch o cmd u).
Proof.
  intros HP w. unfold fetch. rewrite call_bind.
  exists [(cmd, ytdl_exit (length (w_calls w)) cmd)].
  case_bool_decide; [destruct (no_skip o)|]; simpl; split; try done; by repeat constructor.
Qed.

#[local] Hint Resolve fetch_done_tracks fetch_calls_only url_of_video_command
  url_of_audio_command : shaar.

Lemma download_page_quiet o link u t tags : preserves quiet (download_page o link u t tags).
Proof. unfold download_page. preserves_tac. Qed.

#[local] Hint Resolve download_page_quiet : shaar.

Lemma download_video_done_tracks o link u tags :
  no_skip o = false → preserves done_tracks (download_video o link u tags).
Proof.
  intros Hns. unfold download_video. preserves_tac.
Qed.

Lemma download_audio_done_tracks o link u tags :
  no_skip o = false → preserves done_tracks (download_audio o link u tags).
Proof.
  intros Hns. unfold download_audio. preserves_tac.
Qed.

(** Every call a dispatch makes is on the link's own URL. *)
Lemma dispatch_calls_url o link :
  preserves (calls_only (λ cmd, url_of cmd = href link)) (dispatch o link).
Proof.
  unfold dispatch, download_video, download_audio. preserves_tac.
Qed.

Lemma dispatch_done_tracks o link :
  no_skip o = false → preserves done_tracks (dispatch o link).
Proof.
  intros Hns. unfold dispatch. preserves_tac.
  all: eauto using download_video_done_tracks, download_audio_done_tracks.
Qed.


Lemma download_page_appends o link u t tags : preserves appends (download_page o link u t tags).
Proof. unfold download_page. preserves_tac. Qed.

Lemma fetch_appends o cmd u : preserves appends (fetch o cmd u).
Proof. unfold fetch. preserves_tac. Qed.

#[local] Hint Resolve fetch_appends : shaar.

Lemma download_video_appends o link u tags : preserves appends (download_video o link u tags).
Proof. unfold download_video. preserves_tac. Qed.

Lemma download_audio_appends o link u tags : preserves appends (download_audio o link u tags).
Proof. unfold download_audio. preserves_tac. Qed.

#[local] Hint Resolve download_page_appends download_video_appends download_audio_appends : shaar.

Lemma dispatch_appends o link : preserves appends (dispatch o link).
Proof. unfold dispatch. preserves_tac. Qed.

End dispatch_lemmas.

#[export] Hint Resolve download_page_quiet dispatch_done_tracks dispatch_calls_url
  dispatch_appends : shaar.

Section dispatch_runs.
Context `{YtdlTool}.

(** With a hash, the magnet branch prints and then opens the file: the
    write's outcome is the handler's. *)
Lemma download_page_magnet o link u t tags h w :
  is_magnet link = true → Magnet.search (href link) = Some h →
  download_page o link u t tags w =
  write_file (magnet_path o h) (href link)
    (final (print ("[shaarchiver] Link is a magnet. Saving it to " +:+ h +:+ ".magnet")) w).
Proof.
  intros Hm Hs. unfold download_page. rewrite Hm. cbv zeta.
  rewrite findall_length_0, Hs, bool_decide_false by done.
  unfold mbind, pyM_bind, liftO. simpl. by rewrite index_findall, Hs.
Qed.

Lemma download_page_saved o link u t tags h w :
  is_magnet link = true → Magnet.search (href link) = Some h →
  dir_ok (w_dirs w) (magnet_path o h) →
  download_page o link u t tags w =
  (mkWorld (w_dirs w) (w_stdout w ++ ["[shaarchiver] Link is a magnet. Saving it to " +:+ h +:+ ".magnet"])
     (w_log w) (w_done w) (w_markdown w) (<[magnet_path o h := href link]> (w_files w))
     (w_calls w), Ok ()).
Proof. intros Hm Hs Hd. rewrite (download_page_magnet _ _ _ _ _ h) by done. by apply write_file_ok. Qed.

Lemma download_page_unwritable o link u t tags h w :
  is_magnet link = true → Magnet.search (href link) = Some h →
  ¬ dir_ok (w_dirs w) (magnet_path o h) →
  download_page o link u t tags w =
  (final (print ("[shaarchiver] Link is a magnet. Saving it to " +:+ h +:+ ".magnet")) w,
   Raise IOError).
Proof. intros Hm Hs Hd. rewrite (download_page_magnet _ _ _ _ _ h) by done. by apply write_file_fail. Qed.

Lemma download_page_no_hash o link u t tags w :
  is_magnet link = true → Magnet.search (href link) = None →
  download_page o link u t tags w =
  (final (report "[shaarchiver] Link appears to be a magnet, but no hash could be found. Not saving it") w,
   Raise IndexError).
Proof.
  intros Hm Hs. unfold download_page. rewrite Hm. cbv zeta.
  rewrite findall_length_0, Hs, bool_decide_true by done.
  unfold mbind, pyM_bind, liftO. simpl. by rewrite index_findall, Hs.
Qed.

Lemma download_page_not_magnet o link u t tags w :
  is_magnet link = false → ∃ w', download_page o link u t tags w = (w', Ok ()) ∧
    w_calls w' = w_calls w ∧ w_done w' = w_done w ∧ w_files w' = w_files w.
Proof.
  intros Hm. unfold download_page. rewrite Hm.
  repeat case_match; eexists; split_and!; reflexivity.
Qed.

(** One handler run: the call it adds, if any. *)
Lemma download_video_run o link u tags w :
  ∃ w', download_video o link u tags w = (w', Ok ()) ∧ w_files w' = w_files w ∧
    w_calls w' = w_calls w ++
      (if match_list tags download_video_for
       then [(video_command o link u, ytdl_exit (length (w_calls w)) (video_command o link u))]
       else []).
Proof.
  unfold download_video. destruct (match_list tags download_video_for).
  - unfold mbind at 1, pyM_bind at 1. simpl. unfold fetch. rewrite call_bind.
    case_bool_decide; [destruct (no_skip o)|]; eexists; split_and!; reflexivity.
  - eexists. split_and!; [reflexivity..|]. by rewrite app_nil_r.
Qed.

Lemma download_audio_run o link u tags w :
  ∃ w', download_audio o link u tags w = (w', Ok ()) ∧ w_files w' = w_files w ∧
    w_calls w' = w_calls w ++
      (if match_list tags download_audio_for
       then [(audio_command o link u, ytdl_exit (length (w_calls w)) (audio_command o link u))]
       else []).
Proof.
  unfold download_audio. destruct (match_list tags download_audio_for).
  - unfold mbind at 1, pyM_bind at 1. simpl. unfold fetch. rewrite call_bind.
    case_bool_decide; [destruct (no_skip o)|]; eexists; split_and!; reflexivity.
  - eexists. split_and!; [reflexivity..|]. by rewrite app_nil_r.
Qed.

(** What a handler appends to [done.log]: the URL, when the link has a
    tag of the handler, the call succeeds and [--no-skip] is off. *)
Lemma download_video_done o link u tags w :
  ∃ w', download_video o link u tags w = (w', Ok ()) ∧
    w_done w' = w_done w +:+
      (if match_list tags download_video_for &&
          bool_decide (ytdl_exit (length (w_calls w)) (video_command o link u) = 0%Z) &&
          negb (no_skip o) then u +:+ NL else "").
Proof.
  unfold download_video. destruct (match_list tags download_video_for).
  - unfold mbind at 1, pyM_bind at 1. simpl. unfold fetch. rewrite call_bind.
    simpl. destruct (bool_decide (_ = 0%Z)), (no_skip o); eexists; (split; [reflexivity|]);
      simpl; by rewrite ?string_app_nil_r.
  - eexists. split; [reflexivity|]. by rewrite string_app_nil_r.
Qed.

Lemma download_audio_done o link u tags w :
  ∃ w', download_audio o link u tags w = (w', Ok ()) ∧
    w_done w' = w_done w +:+
      (if match_list tags download_audio_for &&
          bool_decide (ytdl_exit (length (w_calls w)) (audio_command o link u) = 0%Z) &&
          negb (no_skip o) then u +:+ NL else "").
Proof.
  unfold download_audio. destruct (match_list tags download_audio_for).
  - unfold mbind at 1, pyM_bind at 1. simpl. unfold fetch. rewrite call_bind.
    simpl. destruct (bool_decide (_ = 0%Z)), (no_skip o); eexists; (split; [reflexivity|]);
      simpl; by rewrite ?string_app_nil_r.
  - eexists. split; [reflexivity|]. by rewrite string_app_nil_r.
Qed.

Lemma download_page_ok o link u t tags w :
  page_writable o link w →
  ∃ w', download_page o link u t tags w = (w', Ok ()) ∧ w_calls w' = w_calls w ∧
    w_files w' = page_files o link (w_files w).
Proof.
  unfold page_writable, page_files, classify. simpl. destruct (is_magnet link) eqn:Hm.
  - intros [?|(h & Hs & Hd)]; [done|].
    rewrite (download_page_saved _ _ _ _ _ h) by done. rewrite Hs. eauto.
  - intros _. destruct (download_page_not_magnet o link u t tags w Hm) as (w' & -> & Hc' & _ & Hf).
    exists w'. split_and!; [done|done|]. rewrite Hf. by repeat case_match.
Qed.

End dispatch_runs.

Section dispatch_refinement.
Context `{YtdlTool}.

(** The run of the three handlers on a link whose page step returns:
    the calls are the ones of the handlers' own tag tests. *)
Lemma dispatch_ok o link w :
  page_writable o link w →
  ∃ w' new, dispatch o link w = (w', Ok ()) ∧
    w_calls w' = w_calls w ++ new ∧
    map fst new =
      (if match_list (tags link) download_video_for then [video_command o link (href link)] else []) ++
      (if match_list (tags link) download_audio_for then [audio_command o link (href link)] else []) ∧
    w_files w' = page_files o link (w_files w).
Proof.
  intros Hc. unfold dispatch.
  destruct (download_page_ok o link (href link) (title link) (tags link) w Hc)
    as (w1 & Hp & C1 & F1).
  destruct (download_video_run o link (href link) (tags link) w1) as (w2 & Hv & F2 & C2).
  destruct (download_audio_run o link (href link) (tags link) w2) as (w3 & Ha & F3 & C3).
  rewrite (pym_bind_step _ _ _ _ _ Hp), (pym_bind_step _ _ _ _ _ Hv).
  eexists w3, _. split_and!; [exact Ha| |  |by rewrite F3, F2, F1].
  - by rewrite C3, C2, C1, <- app_assoc.
  - rewrite map_app. by destruct (match_list (tags link) download_video_for),
      (match_list (tags link) download_audio_for).
Qed.

(** For a link that is not a magnet, the handlers' tag tests are the
    classifier's. *)
Lemma dispatch_plan_not_magnet o link :
  is_magnet link = false →
  dispatch_plan o link =
    (if match_list (tags link) download_video_for then [video_command o link (href link)] else []) ++
    (if match_list (tags link) download_audio_for then [audio_command o link (href link)] else []).
Proof. intros Hm. unfold dispatch_plan, classify. simpl. by rewrite Hm. Qed.

Lemma dispatch_plan_magnet o link : is_magnet link = true → dispatch_plan o link = [].
Proof. intros Hm. unfold dispatch_plan, classify. simpl. by rewrite Hm. Qed.

(** C5: where the code agrees with the spec's classifier -- a link that
    is not a magnet, or a magnet with a hash, a writable magnet file and
    no media tag -- dispatching returns normally, calls youtube-dl
    exactly on the commands the classification schedules (video, then
    audio), and writes a magnet file exactly when the page action is
    [PMagnet].  C8 and C9 show the code leaves the spec on the other
    magnets. *)
Theorem dispatch_refines o link w :
  (is_magnet link = false ∨
   (∃ h, Magnet.search (href link) = Some h ∧ dir_ok (w_dirs w) (magnet_path o h)) ∧
   match_list (tags link) download_video_for = false ∧
   match_list (tags link) download_audio_for = false) →
  ∃ w' new, dispatch o link w = (w', Ok ()) ∧
    w_calls w' = w_calls w ++ new ∧ map fst new = dispatch_plan o link ∧
    w_files w' = page_files o link (w_files w).
Proof.
  intros Hc. destruct (is_magnet link) eqn:Hm.
  - destruct Hc as [?|(Hw & Hv & Ha)]; [done|].
    destruct (dispatch_ok o link w (or_intror Hw)) as (w' & new & Hd & C & P & F).
    exists w', new. rewrite dispatch_plan_magnet, P, Hv, Ha by done. done.
  - destruct (dispatch_ok o link w (or_introl Hm)) as (w' & new & Hd & C & P & F).
    exists w', new. by rewrite dispatch_plan_not_magnet.
Qed.

End dispatch_refinement.

Lemma dispatch_refines_witness :
  ∃ w' new,
    @dispatch (ytdl_const 0%Z) (opts_for "/b" None)
      (mkLink "1400000000" "http://example.org/v" false ["video"; "music"] "V" "" false)
      (mkWorld ∅ [] "" "" "" ∅ []) = (w', Ok ()) ∧
    w_calls w' = [] ++ new ∧
    map fst new = dispatch_plan (opts_for "/b" None)
      (mkLink "1400000000" "http://example.org/v" false ["video"; "music"] "V" "" false) ∧
    w_files w' = page_files (opts_for "/b" None)
      (mkLink "1400000000" "http://example.org/v" false ["video"; "music"] "V" "" false) ∅.
Proof. apply (@dispatch_refines (ytdl_const 0%Z)). by left. Defined.


Section dispatch_properties.
Context `{YtdlTool}.

(** C8: a magnet link with a video tag whose file can be written is
    saved as a magnet file AND handed to youtube-dl, although the spec's
    classifier (section 4.1) gives it the magnet action only and
    schedules no media fetch: the page step's magnet branch does not
    stop the media steps. *)
Theorem magnet_video_calls_ytdl o link h w :
  is_magnet link = true → Magnet.search (href link) = Some h →
  dir_ok (w_dirs w) (magnet_path o h) →
  match_list (tags link) download_video_for = true →
  ∃ w', dispatch o link w = (w', Ok ()) ∧
    w_files w' !! magnet_path o h = Some (href link) ∧
    video_command o link (href link) ∈ map fst (w_calls w') ∧
    c_page (classify link) = PMagnet ∧ dispatch_plan o link = [].
Proof.
  intros Hm Hs Hd Hv. unfold dispatch.
  rewrite (pym_bind_step _ _ _ _ _ (download_page_saved o link _ _ _ h w Hm Hs Hd)).
  match goal with |- context [(download_video o link _ _ ≫= _) ?w1] =>
    destruct (download_video_run o link (href link) (tags link) w1) as (w2 & Hv' & F2 & C2) end.
  destruct (download_audio_run o link (href link) (tags link) w2) as (w3 & Ha & F3 & C3).
  rewrite (pym_bind_step _ _ _ _ _ Hv'). exists w3. split_and!; [exact Ha| | | |].
  - rewrite F3, F2. simpl. by rewrite lookup_insert_eq.
  - rewrite C3, C2, Hv. rewrite !map_app, !elem_of_app. simpl. left. right. by left.
  - unfold classify. simpl. by rewrite Hm.
  - by apply dispatch_plan_magnet.
Qed.

(** C10: a failed youtube-dl call (non-zero exit code) is reported on
    standard output and in the log, and [done.log] is left unchanged,
    so the link is retried by the next run. *)
Theorem download_video_failure o link u tags w :
  match_list tags download_video_for = true →
  ytdl_exit (length (w_calls w)) (video_command o link u) ≠ 0%Z →
  download_video o link u tags w =
  (mkWorld (w_dirs w) (w_stdout w ++ ["[shaarchiver] Downloading video for " +:+ u;
                           "[shaarchiver] ERROR Download failed for " +:+ u])
     ((w_log w +:+ (("[shaarchiver] Downloading video for " +:+ u) +:+ NL))
        +:+ (("[shaarchiver] ERROR Download failed for " +:+ u) +:+ NL))
     (w_done w) (w_markdown w) (w_files w)
     (w_calls w ++ [(video_command o link u, ytdl_exit (length (w_calls w)) (video_command o link u))]),
   Ok ()).
Proof.
  intros Hv Hf. unfold download_video. rewrite Hv.
  unfold mbind at 1, pyM_bind at 1. simpl. unfold fetch. rewrite call_bind. simpl.
  rewrite bool_decide_false by done. unfold report, mbind, pyM_bind. simpl. by rewrite <- app_assoc.
Qed.

(** C11: a link tagged for both video and audio whose two calls succeed
    is appended to [done.log] twice, once by each handler. *)
Theorem both_handlers_record_url o link w :
  (∀ n cmd, ytdl_exit n cmd = 0%Z) → no_skip o = false → is_magnet link = false →
  match_list (tags link) download_video_for = true →
  match_list (tags link) download_audio_for = true →
  ∃ w', dispatch o link w = (w', Ok ()) ∧
    w_done w' = (w_done w +:+ (href link +:+ NL)) +:+ (href link +:+ NL).
Proof.
  intros Hok Hns Hm Hv Ha. unfold dispatch.
  destruct (download_page_not_magnet o link (href link) (title link) (tags link) w Hm)
    as (w1 & Hp & _ & D1 & _).
  destruct (download_video_done o link (href link) (tags link) w1) as (w2 & Hv' & D2).
  destruct (download_audio_done o link (href link) (tags link) w2) as (w3 & Ha' & D3).
  rewrite (pym_bind_step _ _ _ _ _ Hp), (pym_bind_step _ _ _ _ _ Hv').
  exists w3. split; [exact Ha'|].
  rewrite D3, D2, D1, Hv, Ha, !Hok, Hns. done.
Qed.

End dispatch_properties.

Lemma magnet_video_calls_ytdl_witness :
  ∃ w', @dispatch (ytdl_const 1%Z) (opts_for "/b" None)
      (mkLink "1400000000" "magnet:?xt=urn:btih:ABCD1234&dn=test" false ["video"] "M" "" true)
      (mkWorld {["/b"]} [] "" "" "" ∅ []) = (w', Ok ()) ∧
    w_files w' !! magnet_path (opts_for "/b" None) "ABCD1234" =
      Some "magnet:?xt=urn:btih:ABCD1234&dn=test" ∧
    video_command (opts_for "/b" None)
      (mkLink "1400000000" "magnet:?xt=urn:btih:ABCD1234&dn=test" false ["video"] "M" "" true)
      "magnet:?xt=urn:btih:ABCD1234&dn=test" ∈ map fst (w_calls w') ∧
    c_page (classify (mkLink "1400000000" "magnet:?xt=urn:btih:ABCD1234&dn=test" false ["video"] "M" "" true))
      = PMagnet ∧
    dispatch_plan (opts_for "/b" None)
      (mkLink "1400000000" "magnet:?xt=urn:btih:ABCD1234&dn=test" false ["video"] "M" "" true) = [].
Proof.
  apply (@magnet_video_calls_ytdl (ytdl_const 1%Z));
    [reflexivity|vm_compute; reflexivity|apply (bool_decide_eq_true_1 (dir_ok _ _)); vm_compute; reflexivity|reflexivity].
Defined.

Lemma download_video_failure_witness :
  @download_video (ytdl_const 1%Z) (opts_for "/b" None)
    (mkLink "1400000000" "http://example.org/v" false ["video"] "V" "" false)
    "http://example.org/v" ["video"] (mkWorld ∅ [] "" "" "" ∅ []) =
  (mkWorld ∅ ["[shaarchiver] Downloading video for http://example.org/v";
            "[shaarchiver] ERROR Download failed for http://example.org/v"]
     (("" +:+ ("[shaarchiver] Downloading video for http://example.org/v" +:+ NL))
        +:+ ("[shaarchiver] ERROR Download failed for http://example.org/v" +:+ NL))
     "" "" ∅
     ([] ++ [(video_command (opts_for "/b" None)
               (mkLink "1400000000" "http://example.org/v" false ["video"] "V" "" false)
               "http://example.org/v", 1%Z)]),
   Ok ()).
Proof. apply (@download_video_failure (ytdl_const 1%Z)); [reflexivity|simpl; lia]. Defined.

Lemma both_handlers_record_url_witness :
  ∃ w', @dispatch (ytdl_const 0%Z) (opts_for "/b" None)
      (mkLink "1400000000" "http://example.org/v" false ["video"; "music"] "V" "" false)
      (mkWorld ∅ [] "" "" "" ∅ []) = (w', Ok ()) ∧
    w_done w' = ("" +:+ ("http://example.org/v" +:+ NL)) +:+ ("http://example.org/v" +:+ NL).
Proof. apply (@both_handlers_record_url (ytdl_const 0%Z)); reflexivity. Defined.
