(* ===== verification/Markdown.v ===== *)
(** * Markdown: [gen_markdown] (lines 266-279)

    One summary line per link, [ * [title](href)`tags`], where [tags] is
    [" @" + " @".join(link.tags)] for a tagged link; the description, if
    not empty, in a fenced block; then a log line that ends with
    [str(link.tags)], the Python 2 [repr] of a list of [unicode]
    strings.  [py_repr_u] follows CPython 2.7's [unicode_repr] for code
    points below 256: prefix [u], single quotes unless the text has a
    single quote and no double quote, backslash before the quote and
    before a backslash, [\t], [\n], [\r], and [\xhh] for the other
    characters below 32 or from 127 on. *)

From S2P Require Import Prelude Helpers Config Link Effects.

Definition squote : ascii := "'"%char.
Definition dquote : ascii := "034"%char.
Definition backslash : ascii := "092"%char.

Definition hex_digit (n : nat) : ascii :=
  match String.get n "0123456789abcdef" with Some c => c | None => "0"%char end.

(** The escape of one character inside quotes [q]. *)
Definition char_repr (q c : ascii) : string :=
  let n := nat_of_ascii c in
  if bool_decide (c = q) || bool_decide (c = backslash) then String backslash (String c "")
  else if Nat.eqb n 9 then String backslash "t"
  else if Nat.eqb n 10 then String backslash "n"
  else if Nat.eqb n 13 then String backslash "r"
  else if Nat.ltb n 32 || Nat.leb 127 n then
    String backslash (String "x" (String (hex_digit (n / 16)) (String (hex_digit (n mod 16)) "")))
  else String c "".

(** [repr(u)] for a [unicode] string [u]. *)
Definition py_repr_u (s : string) : string :=
  let q := if Py.has_char squote s && negb (Py.has_char dquote s) then dquote else squote in
  "u" +:+ String q (concat_strings (map (char_repr q) (String.list_ascii_of_string s)) +:+ String q "").

(** [str(l)] for a list of [unicode] strings. *)
Definition py_list_repr (l : list string) : string :=
  "[" +:+ Py.join ", " (map py_repr_u l) +:+ "]".

(** The fence of the description block. *)
Definition fence : string := "```".

(** The tag part of the summary line (lines 270-273). *)
Definition md_tags (linktags : list string) : string :=
  (if bool_decide (0 < length linktags) then " @" else "") +:+ Py.join " @" linktags.

(** [gen_markdown] (lines 266-279). *)
Definition gen_markdown (link : Link) : PyM World unit :=
  let mdline := make_unicode (" * [" +:+ title link +:+ "](" +:+ href link +:+ ")" +:+ "`"
                              +:+ md_tags (tags link) +:+ "`" +:+ NL) in
  md_write mdline;;
  (if bool_decide (description link ≠ "") then
     md_write (make_unicode (fence +:+ NL +:+ description link +:+ fence +:+ NL))
   else mret ());;
  log_write ("markdown generated for " +:+ href link +:+ py_list_repr (tags link) +:+ NL).

(** ** Lemmas *)

Lemma gen_markdown_quiet link : preserves quiet (gen_markdown link).
Proof. unfold gen_markdown. preserves_tac. Qed.

Lemma gen_markdown_appends link : preserves appends (gen_markdown link).
Proof. unfold gen_markdown. preserves_tac. Qed.

#[export] Hint Resolve gen_markdown_quiet gen_markdown_appends : shaar.

(** The summary gets exactly the link's line, and its description block
    when it has one. *)
Lemma gen_markdown_run link w :
  gen_markdown link w =
  (mkWorld (w_dirs w) (w_stdout w)
     (w_log w +:+ ("markdown generated for " +:+ href link +:+ py_list_repr (tags link) +:+ NL))
     (w_done w)
     ((w_markdown w +:+ (" * [" +:+ title link +:+ "](" +:+ href link +:+ ")" +:+ "`"
                         +:+ md_tags (tags link) +:+ "`" +:+ NL))
        +:+ (if bool_decide (description link ≠ "")
             then fence +:+ NL +:+ description link +:+ fence +:+ NL else ""))
     (w_files w) (w_calls w), Ok ()).
Proof.
  unfold gen_markdown, mbind, pyM_bind, make_unicode. case_bool_decide; simpl.
  - done.
  - by rewrite string_app_nil_r.
Qed.
