(* ===== verification/Dates.v ===== *)
(** * Dates: [datetime.strptime(s, "%d/%m/%Y").date()] (lines 339, 344)

    The start-up converts [--min-date] and [--max-date] with
    [datetime.strptime(.., "%d/%m/%Y").date()].  CPython 2.7's
    [_strptime] compiles the format to the regular expression
    [(?P<d>3[0-1]|[1-2]\d|0[1-9]|[1-9]| [1-9])/(?P<m>1[0-2]|0[1-9]|[1-9])/(?P<Y>\d\d\d\d)],
    runs [re.match] (backtracking, alternatives in order, no end anchor),
    raises [ValueError] when nothing matches or when text is left after
    the match, then builds [date(year, month, day)], which raises
    [ValueError] for a year below 1 or a day past the end of the month.

    A [date] is modelled by its day number from 1970-01-01, the
    proleptic Gregorian ordinal of [date.toordinal] ([ymd2ord], as in
    CPython's [datetime.py]) minus that of the epoch. *)

From S2P Require Import Prelude Helpers.

Local Open Scope Z_scope.

Module Cal.

(** [_is_leap(year)]: [year % 4 == 0 and (year % 100 != 0 or year % 400 == 0)] *)
Definition is_leap (y : Z) : bool :=
  Z.eqb (y mod 4) 0 && (negb (Z.eqb (y mod 100) 0) || Z.eqb (y mod 400) 0).

(** [_DAYS_IN_MONTH] and [_DAYS_BEFORE_MONTH], index 0 unused. *)
Definition DAYS_IN_MONTH : list Z := [-1; 31; 28; 31; 30; 31; 30; 31; 31; 30; 31; 30; 31].
Definition DAYS_BEFORE_MONTH : list Z := [-1; 0; 31; 59; 90; 120; 151; 181; 212; 243; 273; 304; 334].

(** [_days_before_year(year)] *)
Definition days_before_year (year : Z) : Z :=
  let y := year - 1 in y * 365 + y / 4 - y / 100 + y / 400.

(** [_days_in_month(year, month)] *)
Definition days_in_month (year month : Z) : Z :=
  if Z.eqb month 2 && is_leap year then 29 else nth (Z.to_nat month) DAYS_IN_MONTH 0.

(** [_days_before_month(year, month)] *)
Definition days_before_month (year month : Z) : Z :=
  nth (Z.to_nat month) DAYS_BEFORE_MONTH 0 + (if Z.ltb 2 month && is_leap year then 1 else 0).

(** [_ymd2ord(year, month, day)]: [date.toordinal()] *)
Definition ymd2ord (year month day : Z) : Z :=
  days_before_year year + days_before_month year month + day.

(** [date(1970, 1, 1).toordinal()] *)
Definition epoch_ordinal : Z := 719163.

End Cal.

Module Strptime.

Definition in_range (lo hi : nat) (c : ascii) : bool :=
  bool_decide (lo ≤ nat_of_ascii c ≤ hi)%nat.

(** [\d] on a [str]: an ASCII digit. *)
Definition is_digit : ascii → bool := in_range 48 57.

Definition digit_val (c : ascii) : Z := Z.of_nat (nat_of_ascii c) - 48.

(** A one- or two-character alternative of a group: its value and the
    rest, or no match. *)
Definition alt1 (p : ascii → bool) (s : string) : list (Z * string) :=
  match s with
  | String a r => if p a then [(digit_val a, r)] else []
  | EmptyString => []
  end.

Definition alt2 (p q : ascii → bool) (s : string) : list (Z * string) :=
  match s with
  | String a (String b r) => if p a && q b then [(10 * digit_val a + digit_val b, r)] else []
  | _ => []
  end.

(** [ [1-9]] (a space, then a digit): the value of the digit. *)
Definition alt_space (s : string) : list (Z * string) :=
  match s with
  | String a (String b r) => if in_range 32 32 a && in_range 49 57 b then [(digit_val b, r)] else []
  | _ => []
  end.

(** [3[0-1]|[1-2]\d|0[1-9]|[1-9]| [1-9]]: every way to match, in the
    order the backtracking tries them. *)
Definition day_alts (s : string) : list (Z * string) :=
  alt2 (in_range 51 51) (in_range 48 49) s ++ alt2 (in_range 49 50) is_digit s ++
  alt2 (in_range 48 48) (in_range 49 57) s ++ alt1 (in_range 49 57) s ++ alt_space s.

(** [1[0-2]|0[1-9]|[1-9]] *)
Definition month_alts (s : string) : list (Z * string) :=
  alt2 (in_range 49 49) (in_range 48 50) s ++ alt2 (in_range 48 48) (in_range 49 57) s ++
  alt1 (in_range 49 57) s.

(** [\d\d\d\d] *)
Definition year_alts (s : string) : list (Z * string) :=
  match s with
  | String a (String b (String c (String d r))) =>
      if is_digit a && is_digit b && is_digit c && is_digit d then
        [(1000 * digit_val a + 100 * digit_val b + 10 * digit_val c + digit_val d, r)]
      else []
  | _ => []
  end.

Definition slash (s : string) : list string :=
  match s with String "/" r => [r] | _ => [] end.

(** [re.match] of the format's expression: the first match in
    backtracking order, with the groups and the unmatched rest. *)
Definition regex_dmy (s : string) : option (Z * Z * Z * string) :=
  head ('(d, r1) ← day_alts s; r1' ← slash r1; '(m, r2) ← month_alts r1';
        r2' ← slash r2; '(y, r3) ← year_alts r2'; [(d, m, y, r3)]).

(** [datetime.strptime(s, "%d/%m/%Y").date()], as a day number. *)
Definition strptime_dmy (s : string) : outcome Z :=
  match regex_dmy s with
  | None => Raise ValueError
  | Some (d, m, y, rest) =>
      if bool_decide (rest ≠ "") then Raise ValueError
      else if bool_decide (y < 1)%Z then Raise ValueError
      else if bool_decide (Cal.days_in_month y m < d)%Z then Raise ValueError
      else Ok (Cal.ymd2ord y m d - Cal.epoch_ordinal)
  end.

(** ** Formatting as [%02d/%02d/%04d] *)

Definition digit_char (k : Z) : ascii := ascii_of_nat (48 + Z.to_nat k).

Definition fmt_dmy (d m y : Z) : string :=
  String (digit_char (d / 10)) (String (digit_char (d mod 10)) (String "/"
  (String (digit_char (m / 10)) (String (digit_char (m mod 10)) (String "/"
  (String (digit_char (y / 1000)) (String (digit_char (y / 100 mod 10))
  (String (digit_char (y / 10 mod 10)) (String (digit_char (y mod 10)) ""))))))))).

End Strptime.

(** ** Lemmas *)

Import Cal Strptime.

Lemma digit_char_spec k :
  (0 ≤ k < 10)%Z → is_digit (digit_char k) = true ∧ digit_val (digit_char k) = k.
Proof.
  intros Hk. unfold is_digit, in_range, digit_val, digit_char.
  rewrite nat_ascii_embedding by lia. split; [apply bool_decide_eq_true; lia|lia].
Qed.

Lemma four_digits y :
  (0 ≤ y < 10000)%Z →
  (1000 * (y / 1000) + 100 * (y / 100 mod 10) + 10 * (y / 10 mod 10) + y mod 10 = y)%Z.
Proof.
  intros Hy.
  assert (E1 : (y / 100 = (y / 10) / 10)%Z) by (rewrite Z.div_div by lia; reflexivity).
  assert (E2 : (y / 1000 = (y / 100) / 10)%Z) by (rewrite Z.div_div by lia; reflexivity).
  pose proof (Z.div_mod y 10 ltac:(lia)). pose proof (Z.div_mod (y / 10) 10 ltac:(lia)).
  pose proof (Z.div_mod (y / 100) 10 ltac:(lia)). lia.
Qed.

Lemma year_alts_fmt y r :
  (1000 ≤ y < 10000)%Z →
  year_alts (String (digit_char (y / 1000)) (String (digit_char (y / 100 mod 10))
    (String (digit_char (y / 10 mod 10)) (String (digit_char (y mod 10)) r)))) = [(y, r)].
Proof.
  intros Hy.
  destruct (digit_char_spec (y / 1000)) as [A1 A2]; [split; [apply Z.div_pos|apply Z.div_lt_upper_bound]; lia|].
  destruct (digit_char_spec (y / 100 mod 10)) as [B1 B2]; [apply Z.mod_pos_bound; lia|].
  destruct (digit_char_spec (y / 10 mod 10)) as [C1 C2]; [apply Z.mod_pos_bound; lia|].
  destruct (digit_char_spec (y mod 10)) as [D1 D2]; [apply Z.mod_pos_bound; lia|].
  cbn [year_alts]. rewrite A1, B1, C1, D1, A2, B2, C2, D2. simpl. by rewrite four_digits by lia.
Qed.

(** A property of each element of an explicit list, checked by
    evaluation of each instance. *)
Ltac enum_cases :=
  repeat (apply Forall_cons; split; [eexists; vm_compute; reflexivity|]); constructor.

(** The zero-padded day is matched by its first alternative that applies. *)
Lemma day_alts_fmt d r :
  (1 ≤ d ≤ 31)%Z →
  ∃ tl, day_alts (String (digit_char (d / 10)) (String (digit_char (d mod 10)) r)) = (d, r) :: tl.
Proof.
  intros Hd.
  assert (H : Forall (λ d, ∃ tl, day_alts (String (digit_char (d / 10))
                 (String (digit_char (d mod 10)) r)) = (d, r) :: tl) (seqZ 1 31)).
  { change (seqZ 1 31) with [1; 2; 3; 4; 5; 6; 7; 8; 9; 10; 11; 12; 13; 14; 15; 16; 17; 18; 19; 20; 21; 22; 23; 24; 25; 26; 27; 28; 29; 30; 31]. enum_cases. }
  rewrite Forall_forall in H. apply H, elem_of_seqZ. lia.
Qed.

Lemma month_alts_fmt m r :
  (1 ≤ m ≤ 12)%Z →
  ∃ tl, month_alts (String (digit_char (m / 10)) (String (digit_char (m mod 10)) r)) = (m, r) :: tl.
Proof.
  intros Hm.
  assert (H : Forall (λ m, ∃ tl, month_alts (String (digit_char (m / 10))
                 (String (digit_char (m mod 10)) r)) = (m, r) :: tl) (seqZ 1 12)).
  { change (seqZ 1 12) with [1; 2; 3; 4; 5; 6; 7; 8; 9; 10; 11; 12]. enum_cases. }
  rewrite Forall_forall in H. apply H, elem_of_seqZ. lia.
Qed.

Lemma regex_dmy_fmt d m y :
  (1 ≤ d ≤ 31)%Z → (1 ≤ m ≤ 12)%Z → (1000 ≤ y < 10000)%Z →
  regex_dmy (fmt_dmy d m y) = Some (d, m, y, "").
Proof.
  intros Hd Hm Hy. unfold regex_dmy, fmt_dmy.
  destruct (day_alts_fmt d (String "/" (String (digit_char (m / 10)) (String (digit_char (m mod 10))
    (String "/" (String (digit_char (y / 1000)) (String (digit_char (y / 100 mod 10))
    (String (digit_char (y / 10 mod 10)) (String (digit_char (y mod 10)) ""))))))))) as [tl ->];
    [done|].
  destruct (month_alts_fmt m (String "/" (String (digit_char (y / 1000)) (String (digit_char (y / 100 mod 10))
    (String (digit_char (y / 10 mod 10)) (String (digit_char (y mod 10)) "")))))) as [tl' Em]; [done|].
  cbn [mbind list_bind slash]. rewrite Em. cbn [mbind list_bind slash].
  rewrite year_alts_fmt by done. reflexivity.
Qed.

(** ** Properties *)

(** C23: [strptime] reads back a date written as [DD/MM/YYYY] (two-digit
    day and month, four-digit year): it gives the day number of that
    date when the day exists in the month, and raises [ValueError]
    (as for [31/02/2015]) when it does not. *)
Theorem strptime_fmt d m y :
  1 ≤ d ≤ 31 → 1 ≤ m ≤ 12 → 1000 ≤ y < 10000 →
  strptime_dmy (fmt_dmy d m y) =
  if bool_decide (days_in_month y m < d) then Raise ValueError
  else Ok (ymd2ord y m d - epoch_ordinal).
Proof.
  intros Hd Hm Hy. unfold strptime_dmy. rewrite regex_dmy_fmt by done.
  rewrite (bool_decide_false ("" ≠ "")) by (intros Hne; by apply Hne). rewrite bool_decide_false by lia. done.
Qed.

Lemma strptime_fmt_witness :
  strptime_dmy (fmt_dmy 15 3 2015) = Ok 16509 ∧ strptime_dmy (fmt_dmy 31 2 2015) = Raise ValueError.
Proof.
  split.
  - rewrite (strptime_fmt 15 3 2015) by lia. vm_compute. reflexivity.
  - rewrite (strptime_fmt 31 2 2015) by lia. vm_compute. reflexivity.
Defined.
