(* ===== verification/Main.v ===== *)
(** * Main: the loop of lines 370-404

    [run] is what the program does once the options are parsed and the
    files opened: read [done.log] (its content at start is [w_done]),
    report the number of links, write the markdown header, then
    [main_loop] over the links in order.  Each iteration ([process_link])
    applies the date filter, then [check_dl], then the three handlers,
    then [gen_markdown] when [options.markdown] is true.

    The date filter reads [link.get("add_date")]: [Link] is a namedtuple,
    which has no [get], so the attribute lookup raises [AttributeError]
    as soon as a date bound is given; the comparisons of lines 391-394
    ([date_out_of_range]) are modelled as written but never reached.
    [date.fromtimestamp] reads local time: [tz_offset] is the local
    offset from UTC in seconds. *)

From stdpp Require Import pretty.
From S2P Require Import Prelude Helpers Config Link Magnet Ledger Effects Eligibility Dispatch Markdown.

Section main.
Context `{YtdlTool}.
Context (tz_offset : Z).

(** [link.get(key)]: a namedtuple has no attribute [get]. *)
Definition link_get (link : Link) (key : string) : outcome string := Raise AttributeError.

(** [float(s)] for a string of decimal digits (the form [ADD_DATE]
    has); any other string raises [ValueError]. *)
Fixpoint digits_value (s : string) (acc : Z) : option Z :=
  match s with
  | EmptyString => Some acc
  | String c r =>
      let n := nat_of_ascii c in
      if Nat.leb 48 n && Nat.ltb n 58 then digits_value r (10 * acc + Z.of_nat (n - 48))
      else None
  end.

Definition py_float_int (s : string) : outcome Z :=
  match s with
  | EmptyString => Raise ValueError
  | _ => match digits_value s 0 with Some z => Ok z | None => Raise ValueError end
  end.

(** [date.fromtimestamp(ts)]: the local calendar day, as a day number. *)
Definition date_fromtimestamp (ts : Z) : Z := (ts + tz_offset) `div` 86400.

(** Lines 391-394: the link is skipped. *)
Definition date_out_of_range (o : Options) (linkdate : Z) : bool :=
  (compare_with_min o &&
     match minimum_date_parsed o with Some m => Z.ltb linkdate m | None => false end) ||
  (compare_with_max o &&
     match maximum_date_parsed o with Some m => Z.ltb m linkdate | None => false end).

(** Lines 389-394: whether the iteration goes on past the date filter. *)
Definition date_filter (o : Options) (link : Link) : PyM World bool :=
  if should_compare_dates o then
    ts ← liftO (link_get link "add_date");
    secs ← liftO (py_float_int ts);
    mret (negb (date_out_of_range o (date_fromtimestamp secs)))
  else mret true.

(** The body of the loop (lines 388-404). *)
Definition process_link (o : Options) (downloaded_urls : list string) (link : Link)
    : PyM World unit :=
  date_filter o link ≫= λ keep : bool,
  if keep then
    check_dl o downloaded_urls (tags link) (href link) ≫= λ ok : bool,
    (if ok then dispatch o link else mret ());;
    (if truthy (markdown o) then gen_markdown link else mret ())
  else mret ().

(** [for link in link_list:] (line 387) *)
Fixpoint main_loop (o : Options) (downloaded_urls : list string) (links : list Link)
    : PyM World unit :=
  match links with
  | [] => mret ()
  | link :: rest => process_link o downloaded_urls link;; main_loop o downloaded_urls rest
  end.

(** Lines 366-404 once the files are open and the links parsed: the
    tags of the header are [elements] of the set, the program's order
    being CPython's set order. *)
Definition run (o : Options) (link_list : list Link) : PyM World unit :=
  done_content ← gets w_done;
  let downloaded_urls := Ledger.load done_content in
  report ("[shaarchiver] Got " +:+ pretty (length link_list) +:+ " links.");;
  (if truthy (markdown o) then
     md_write ("## " +:+ default "" (bookmarksfilename o) +:+ NL +:+
               pretty (length link_list) +:+ " links" +:+ NL +:+ NL);;
     md_write (fence +:+ NL +:+ Py.join " " (elements (get_all_tags link_list)) +:+ NL
               +:+ fence +:+ NL +:+ NL)
   else mret ());;
  main_loop o downloaded_urls link_list.

End main.

(** ** Invariants of the loop *)

Section main_invariants.
Context `{YtdlTool} (tz_offset : Z).

Lemma date_filter_quiet o link : preserves quiet (date_filter tz_offset o link).
Proof. unfold date_filter. preserves_tac. Qed.

Lemma date_filter_appends o link : preserves appends (date_filter tz_offset o link).
Proof. unfold date_filter. preserves_tac. Qed.

#[local] Hint Resolve date_filter_quiet date_filter_appends : shaar.

Lemma process_link_appends o L link : preserves appends (process_link tz_offset o L link).
Proof. unfold process_link. preserves_tac. Qed.

#[local] Hint Resolve process_link_appends : shaar.

Lemma main_loop_appends o L links : preserves appends (main_loop tz_offset o L links).
Proof. induction links as [|link rest IH]; simpl; preserves_tac. Qed.

Lemma process_link_done_tracks o L link :
  no_skip o = false → preserves done_tracks (process_link tz_offset o L link).
Proof.
  intros Hns. unfold process_link. preserves_tac.
Qed.

Lemma main_loop_done_tracks o L links :
  no_skip o = false → preserves done_tracks (main_loop tz_offset o L links).
Proof.
  intros Hns. induction links as [|link rest IH]; simpl; preserves_tac.
  by apply process_link_done_tracks.
Qed.

(** A dispatch happens only for a link [check_dl] let through: with
    [--no-skip] off, its URL is not in [downloaded_urls]. *)
Lemma process_link_calls_not_done o L link :
  no_skip o = false →
  preserves (calls_only (λ cmd, (url_of cmd ∉ L) ∧ url_of cmd = href link))
    (process_link tz_offset o L link).
Proof.
  intros Hns. unfold process_link.
  apply preserves_bind; [typeclasses eauto|auto with shaar|intros [|]; [|preserves_tac]].
  apply (preserves_bind_post _ (λ ok, ok = true → check_dl_reason o L (tags link) (href link) = None));
    [preserves_tac|intros s s' a Hs ->; by apply check_dl_true in Hs as [_ ?]|].
  intros [|] Hok; preserves_tac.
  intros w. eapply calls_only_mono; [|apply dispatch_calls_url].
  intros c ->. split; [|done]. by apply (check_dl_reason_none_not_done o L (tags link)); [apply Hok|].
Qed.

Lemma main_loop_calls_not_done o L links :
  no_skip o = false →
  preserves (calls_only (λ cmd, (url_of cmd ∉ L) ∧ ∃ l, l ∈ links ∧ url_of cmd = href l))
    (main_loop tz_offset o L links).
Proof.
  intros Hns. induction links as [|link rest IH]; simpl; [preserves_tac|].
  apply preserves_bind; [typeclasses eauto| |intros _].
  - intros w. eapply calls_only_mono; [|by apply process_link_calls_not_done].
    intros c [Hn Hu]. split; [done|]. exists link. split; [left|done].
  - intros w. eapply calls_only_mono; [|apply IH].
    intros c [Hn (l & Hl & Hu)]. split; [done|]. exists l. split; [by right|done].
Qed.

End main_invariants.

(** ** Runs of the loop body *)

Section main_runs.
Context `{YtdlTool} (tz_offset : Z).

(** With no date bound, the body of the loop is [check_dl], then the
    handlers when it accepts, then the markdown line. *)
Lemma process_link_no_dates o L link w :
  should_compare_dates o = false →
  process_link tz_offset o L link w =
  (check_dl o L (tags link) (href link) ≫= λ ok : bool,
     (if ok then dispatch o link else mret ());;
     (if truthy (markdown o) then gen_markdown link else mret ())) w.
Proof. intros Hd. unfold process_link, date_filter. by rewrite Hd. Qed.

(** An accepted link that is not a magnet: the calls it adds are the
    ones the spec's classifier schedules. *)
Lemma process_link_accepted o L link w :
  should_compare_dates o = false → check_dl_reason o L (tags link) (href link) = None →
  is_magnet link = false →
  ∃ w' new, process_link tz_offset o L link w = (w', Ok ()) ∧
    w_calls w' = w_calls w ++ new ∧ map fst new = dispatch_plan o link.
Proof.
  intros Hd Hr Hc. rewrite process_link_no_dates by done.
  rewrite (pym_bind_step _ _ w w true) by (by rewrite check_dl_run, Hr).
  destruct (dispatch_ok o link w (or_introl Hc)) as (w1 & new & Hw1 & C1 & P1 & _).
  rewrite <- dispatch_plan_not_magnet in P1 by done.
  rewrite (pym_bind_step _ _ _ _ _ Hw1). exists (final (if truthy (markdown o) then gen_markdown link else mret ()) w1), new.
  split_and!; [|destruct (truthy (markdown o)); [rewrite gen_markdown_run|]; done|done].
  destruct (truthy (markdown o)); [by rewrite gen_markdown_run|done].
Qed.

End main_runs.

(** ** Properties *)

Section main_properties.
Context `{YtdlTool} (tz_offset : Z).

#[local] Hint Resolve main_loop_appends main_loop_done_tracks : shaar.

(** C17: a magnet link without a hash that passes the gate aborts the
    whole run: the "no hash" message is printed and logged, then
    [matches[0]] raises [IndexError] out of the loop, and no later link
    is processed (the result does not depend on [rest]). *)
Theorem magnet_no_hash_aborts o L link rest w :
  should_compare_dates o = false → check_dl_reason o L (tags link) (href link) = None →
  is_magnet link = true → Magnet.search (href link) = None →
  main_loop tz_offset o L (link :: rest) w =
  (final (report "[shaarchiver] Link appears to be a magnet, but no hash could be found. Not saving it") w,
   Raise IndexError).
Proof.
  intros Hd Hr Hm Hs. cbn [main_loop]. apply pym_bind_fail.
  rewrite process_link_no_dates by done.
  rewrite (pym_bind_step _ _ w w true) by (by rewrite check_dl_run, Hr).
  apply pym_bind_fail. unfold dispatch. apply pym_bind_fail.
  by apply download_page_no_hash.
Qed.

(** C9: a magnet link whose file cannot be opened -- its directory is
    missing, as for a hash with a ['/'] such as ["6969/announce"] taken
    from a tracker URL -- aborts the whole run: the "Saving it to"
    message is printed, then [open] raises [IOError] out of the loop and
    no later link is processed. *)
Theorem magnet_unwritable_aborts o L link rest h w :
  should_compare_dates o = false → check_dl_reason o L (tags link) (href link) = None →
  is_magnet link = true → Magnet.search (href link) = Some h →
  ¬ dir_ok (w_dirs w) (magnet_path o h) →
  main_loop tz_offset o L (link :: rest) w =
  (final (print ("[shaarchiver] Link is a magnet. Saving it to " +:+ h +:+ ".magnet")) w,
   Raise IOError).
Proof.
  intros Hd Hr Hm Hs Hw. cbn [main_loop]. apply pym_bind_fail.
  rewrite process_link_no_dates by done.
  rewrite (pym_bind_step _ _ w w true) by (by rewrite check_dl_run, Hr).
  apply pym_bind_fail. unfold dispatch. apply pym_bind_fail.
  by apply download_page_unwritable.
Qed.

(** C18: with a date bound ([--min-date] or [--max-date]), the first
    link makes [link.get("add_date")] raise [AttributeError] (a
    namedtuple has no [get]): the run stops before touching anything. *)
Theorem date_bound_aborts o L link rest w :
  should_compare_dates o = true →
  main_loop tz_offset o L (link :: rest) w = (w, Raise AttributeError).
Proof.
  intros Hd. cbn [main_loop]. apply pym_bind_fail.
  unfold process_link. apply pym_bind_fail. unfold date_filter. by rewrite Hd.
Qed.

(** C19: over a whole run with [--no-skip] off, [done.log] grows by
    exactly the URLs of the successful youtube-dl calls, in call order,
    and calls are only added. *)
Theorem run_done_tracks o links :
  no_skip o = false → preserves done_tracks (run tz_offset o links).
Proof. intros Hns. unfold run. preserves_tac. Qed.

(** C20: with [--no-skip] off, every youtube-dl call of a run is for the
    URL of one of the run's links that was not in [done.log] when the
    run started: a URL recorded by an earlier run is never fetched
    again. *)
Theorem run_calls_not_done o links w :
  no_skip o = false →
  calls_only (λ cmd, (url_of cmd ∉ Ledger.load (w_done w)) ∧ ∃ l, l ∈ links ∧ url_of cmd = href l)
    w (final (run tz_offset o links) w).
Proof.
  intros Hns. unfold run.
  rewrite (pym_bind_step (gets w_done) _ w w (w_done w)) by reflexivity. cbv zeta.
  generalize (Ledger.load (w_done w)) as L. intros L. revert w.
  change (preserves (calls_only (λ cmd, (url_of cmd ∉ L) ∧ ∃ l, l ∈ links ∧ url_of cmd = href l))
    (report ("[shaarchiver] Got " +:+ pretty (length links) +:+ " links.");;
     (if truthy (markdown o) then
        md_write ("## " +:+ default "" (bookmarksfilename o) +:+ NL +:+
                  pretty (length links) +:+ " links" +:+ NL +:+ NL);;
        md_write (fence +:+ NL +:+ Py.join " " (elements (get_all_tags links)) +:+ NL
                  +:+ fence +:+ NL +:+ NL)
      else mret ());;
     main_loop tz_offset o L links)).
  preserves_tac. by apply main_loop_calls_not_done.
Qed.

(** C21: the default of [--markdown] is the string ["False"], which is
    true in [if options.markdown:]: without the flag, the run still
    writes the markdown header (and a line per link). *)
Theorem markdown_header_default o links w :
  markdown o = PyStr "False" →
  str_grows (w_markdown w +:+ ("## " +:+ default "" (bookmarksfilename o) +:+ NL +:+
                               pretty (length links) +:+ " links" +:+ NL +:+ NL))
    (w_markdown (final (run tz_offset o links) w)).
Proof.
  intros Hm. unfold run.
  rewrite (pym_bind_step (gets w_done) _ w w (w_done w)) by reflexivity. cbv zeta.
  unfold mbind at 1, pyM_bind at 1. simpl. rewrite Hm. simpl. rewrite pym_bind_assoc.
  unfold mbind at 1, pyM_bind at 1. simpl.
  match goal with |- str_grows _ (w_markdown (?c ?w2).1) =>
    assert (Hc : preserves appends c) by preserves_tac; destruct (Hc w2) as (_&_&_&Hmd&_) end.
  exact Hmd.
Qed.

(** C22: [downloaded_urls] is read once, before the loop: a link listed
    twice in the export is dispatched twice in the same run, even when
    the first dispatch recorded it in [done.log]. *)
Theorem duplicate_link_dispatched_twice o L link w :
  should_compare_dates o = false → check_dl_reason o L (tags link) (href link) = None →
  is_magnet link = false →
  ∃ w' new, main_loop tz_offset o L [link; link] w = (w', Ok ()) ∧
    w_calls w' = w_calls w ++ new ∧ map fst new = dispatch_plan o link ++ dispatch_plan o link.
Proof.
  intros Hd Hr Hm. cbn [main_loop].
  destruct (process_link_accepted tz_offset o L link w Hd Hr Hm) as (w1 & n1 & H1 & C1 & P1).
  destruct (process_link_accepted tz_offset o L link w1 Hd Hr Hm) as (w2 & n2 & H2 & C2 & P2).
  rewrite (pym_bind_step _ _ _ _ _ H1), (pym_bind_step _ _ _ _ _ H2).
  exists w2, (n1 ++ n2). split_and!; [done| |by rewrite map_app, P1, P2].
  by rewrite C2, C1, app_assoc.
Qed.

End main_properties.

Lemma magnet_no_hash_aborts_witness :
  @main_loop (ytdl_const 0%Z) 0 (opts_for "/b" None) []
    [mkLink "1" "magnet:?dn=film" false [] "M" "" true;
     mkLink "2" "http://example.org/" false ["video"] "V" "" false]
    (mkWorld ∅ [] "" "" "" ∅ []) =
  (final (report "[shaarchiver] Link appears to be a magnet, but no hash could be found. Not saving it")
     (mkWorld ∅ [] "" "" "" ∅ []), Raise IndexError).
Proof. apply (@magnet_no_hash_aborts (ytdl_const 0%Z)); vm_compute; reflexivity. Defined.

Lemma magnet_unwritable_aborts_witness :
  @main_loop (ytdl_const 0%Z) 0 (opts_for "/b" None) []
    [mkLink "1" "magnet:?xt=urn:btih:AB&tr=udp://t.example:6969/announce" false [] "M" "" true;
     mkLink "2" "http://example.org/" false ["video"] "V" "" false]
    (mkWorld {["/b"]} [] "" "" "" ∅ []) =
  (final (print ("[shaarchiver] Link is a magnet. Saving it to " +:+ "6969/announce" +:+ ".magnet"))
     (mkWorld {["/b"]} [] "" "" "" ∅ []), Raise IOError).
Proof.
  apply (@magnet_unwritable_aborts (ytdl_const 0%Z));
    [vm_compute; reflexivity..|apply (bool_decide_eq_false_1 (dir_ok _ _)); vm_compute; reflexivity].
Defined.

Lemma date_bound_aborts_witness :
  @main_loop (ytdl_const 0%Z) 0
    (mkOptions None (Some "bookmarks.html") (Some "/b") (PyStr "False") (PyStr "False")
       (PyStr "True") (Some "01/01/2015") None false false true true (Some 16436%Z) None)
    [] [mkLink "1420070400" "http://example.org/" false ["video"] "V" "" false]
    (mkWorld ∅ [] "" "" "" ∅ []) = (mkWorld ∅ [] "" "" "" ∅ [], Raise AttributeError).
Proof. by apply (@date_bound_aborts (ytdl_const 0%Z)). Defined.

Lemma run_done_tracks_witness :
  preserves done_tracks
    (@run (ytdl_const 0%Z) 0 (opts_for "/b" None)
       [mkLink "1" "http://example.org/" false ["video"] "V" "" false]).
Proof. by apply (@run_done_tracks (ytdl_const 0%Z)). Defined.

Lemma run_calls_not_done_witness :
  calls_only (λ cmd, (url_of cmd ∉ Ledger.load ("http://example.org/a" +:+ NL)) ∧
                     ∃ l, l ∈ [mkLink "1" "http://example.org/b" false ["video"] "V" "" false] ∧
                          url_of cmd = href l)
    (mkWorld ∅ [] "" ("http://example.org/a" +:+ NL) "" ∅ [])
    (final (@run (ytdl_const 0%Z) 0 (opts_for "/b" None)
              [mkLink "1" "http://example.org/b" false ["video"] "V" "" false])
           (mkWorld ∅ [] "" ("http://example.org/a" +:+ NL) "" ∅ [])).
Proof. by apply (@run_calls_not_done (ytdl_const 0%Z)). Defined.

Lemma markdown_header_default_witness :
  str_grows ("" +:+ ("## " +:+ default "" (bookmarksfilename (opts_for "/b" None)) +:+ NL +:+
                     pretty (length ([] : list Link)) +:+ " links" +:+ NL +:+ NL))
    (w_markdown (final (@run (ytdl_const 0%Z) 0 (opts_for "/b" None) []) (mkWorld ∅ [] "" "" "" ∅ []))).
Proof. by apply (@markdown_header_default (ytdl_const 0%Z)). Defined.

Lemma duplicate_link_dispatched_twice_witness :
  ∃ w' new,
    @main_loop (ytdl_const 0%Z) 0 (opts_for "/b" None) []
      [mkLink "1" "http://example.org/v" false ["video"] "V" "" false;
       mkLink "1" "http://example.org/v" false ["video"] "V" "" false]
      (mkWorld ∅ [] "" "" "" ∅ []) = (w', Ok ()) ∧
    w_calls w' = [] ++ new ∧
    map fst new = dispatch_plan (opts_for "/b" None) (mkLink "1" "http://example.org/v" false ["video"] "V" "" false)
                  ++ dispatch_plan (opts_for "/b" None) (mkLink "1" "http://example.org/v" false ["video"] "V" "" false).
Proof. apply (@duplicate_link_dispatched_twice (ytdl_const 0%Z)); vm_compute; reflexivity. Defined.
