(* ===== verification/Startup.v ===== *)
(** * Startup: lines 315-374, and the whole program

    After [parser.parse_args()] the program checks [options.destdir]
    (line 316) and opens the bookmarks file (lines 320-329), each failure
    printing an error and the help and calling [exit(1)]; converts the
    date bounds with [strptime] (lines 332-344), whose [ValueError] is not
    caught; creates the output directories in one [try] block whose bare
    [except] swallows every error (lines 347-354); opens the markdown
    summary in mode [wb+], which empties it (lines 357-359), and the logs
    in mode [a+] (lines 362-366); reads and parses the export
    (lines 371-374); then runs [Main.run].

    [Env] extends the [World] of the handlers (whose [w_dirs] are the
    existing directories, also read by the magnet writes of the loop)
    with the readable input files.  [os.makedirs] is
    modelled by its contract: [OSError] when the leaf exists (or the path
    is empty), else the leaf and its missing ancestors are created.  The
    text [parser.print_help()] prints and BeautifulSoup's
    [find_all(["dt", "dd"])] of the export are section variables
    ([help_text], [parse_html]): library output the program only
    passes on. *)

From S2P Require Import Prelude Helpers Config OptParse Link Ledger Effects Eligibility Dispatch Markdown Dates Main.

Record Env : Type := mkEnv {
  e_world : World;
  e_inputs : gmap string string
}.

(** The existing directories, which [open] also consults. *)
Definition e_dirs (e : Env) : gset string := w_dirs (e_world e).

(** A handler of the loop, run on the world part of the environment. *)
Definition on_world {A} (c : PyM World A) : PyM Env A :=
  λ e, let r := c (e_world e) in (mkEnv r.1 (e_inputs e), r.2).

(** [try: c except: pass] *)
Definition try_pass (c : PyM Env unit) : PyM Env unit :=
  λ e, match c e with
       | (e', Raise _) => (e', Ok ())
       | r => r
       end.

(** The proper ancestors of a path, as [os.makedirs] walks them: every
    non-empty prefix that ends before a [/]. *)
Fixpoint slash_prefixes (acc s : string) : list string :=
  match s with
  | EmptyString => []
  | String c r =>
      (if bool_decide (c = "/"%char ∧ acc ≠ "") then [acc] else []) ++
      slash_prefixes (acc +:+ String c "") r
  end.

(** The world with the directories [D], everything else unchanged. *)
Definition with_dirs (D : gset string) (w : World) : World :=
  mkWorld D (w_stdout w) (w_log w) (w_done w) (w_markdown w) (w_files w) (w_calls w).

Definition add_dirs (ds : list string) (e : Env) : Env :=
  mkEnv (with_dirs (e_dirs e ∪ list_to_set ds) (e_world e)) (e_inputs e).

(** [os.makedirs(path)] *)
Definition makedirs (path : string) : PyM Env unit :=
  e ← gets id;
  if bool_decide (path = "" ∨ path ∈ e_dirs e) then raise OSError
  else modify (add_dirs (path :: slash_prefixes "" path)).

(** The options after lines 332-344, once both dates are converted. *)
Definition with_dates (o : Options) (mn mx : option Z) : Options :=
  mkOptions (usertag o) (bookmarksfilename o) (destdir o) (markdown o) (mp3 o) (download o)
    (minimum_date o) (maximum_date o) (no_skip o)
    (bool_decide (is_Some (maximum_date o))) (bool_decide (is_Some (minimum_date o)))
    (bool_decide (is_Some (minimum_date o) ∨ is_Some (maximum_date o)))
    mn mx.

(** [datetime.strptime(d, "%d/%m/%Y").date()] for a bound that is set. *)
Definition parse_bound (d : option string) : outcome (option Z) :=
  match d with
  | None => Ok None
  | Some s => z ← Strptime.strptime_dmy s; mret (Some z)
  end.

Section startup.
Context (help_text : string) (parse_html : string → list Node).

(** [print(msg); parser.print_help(); exit(1)] *)
Definition fail_usage {A} (msg : string) : PyM Env A :=
  on_world (print msg);; on_world (print help_text);; raise (SystemExit 1).

(** Lines 316-319. *)
Definition check_destdir (o : Options) : PyM Env unit :=
  match destdir o with
  | Some d => if bool_decide (d ≠ "") then mret () else fail_usage "Error: No destination dir specified"
  | None => fail_usage "Error: No destination dir specified"
  end.

(** Lines 320-329: [open(None)] raises [TypeError], a missing file
    [IOError]; the content is what [bookmarksfile.read()] returns. *)
Definition open_bookmarks (o : Options) : PyM Env string :=
  match bookmarksfilename o with
  | None => fail_usage "Error: No bookmarks file specified"
  | Some f =>
      e ← gets id;
      match e_inputs e !! f with
      | Some content => mret content
      | None => fail_usage ("Error: Bookmarks file " +:+ f +:+ " not found")
      end
  end.

(** Lines 332-344. *)
Definition convert_dates (o : Options) : PyM Env Options :=
  mn ← liftO (parse_bound (minimum_date o));
  mx ← liftO (parse_bound (maximum_date o));
  mret (with_dates o mn mx).

(** The directories of lines 348-352, in order. *)
Definition output_dirs (d : string) : list string :=
  [d; d +:+ "/video"; d +:+ "/audio"; d +:+ "/audio/mp3"; d +:+ "/pages"].

Fixpoint makedirs_all (ps : list string) : PyM Env unit :=
  match ps with
  | [] => mret ()
  | p :: rest => makedirs p;; makedirs_all rest
  end.

(** Lines 347-354. *)
Definition make_output_dirs (o : Options) : PyM Env unit :=
  try_pass (makedirs_all (output_dirs (destdir_path o))).

(** Lines 357-363: [codecs.open(.., 'wb+')] truncates the summary; the
    log is opened for appending. *)
Definition open_outputs (o : Options) : PyM Env unit :=
  if truthy (markdown o) then
    on_world (modify (λ w, mkWorld (w_dirs w) (w_stdout w) (w_log w) (w_done w) "" (w_files w) (w_calls w)))
  else mret ().

(** A sequence of [os.makedirs] none of which finds its path existing:
    neither before, nor created by an earlier call of the sequence. *)
Fixpoint fresh_seq (D : gset string) (ps : list string) : Prop :=
  match ps with
  | [] => True
  | p :: rest => p ≠ "" ∧ (p ∉ D) ∧ fresh_seq (D ∪ list_to_set (p :: slash_prefixes "" p)) rest
  end.

(** The program after option parsing. *)
Definition program `{YtdlTool} (tz_offset : Z) (o : Options) : PyM Env unit :=
  check_destdir o;;
  rawdata ← open_bookmarks o;
  o' ← convert_dates o;
  make_output_dirs o';;
  open_outputs o';;
  link_list ← liftO (get_link_list (parse_html rawdata));
  on_world (run tz_offset o' link_list).

(** The script from line 286: [parse_args], then the program; [-h]
    prints the help and exits with 0, [parser.error] exits with 2 (its
    message goes to standard error, which is not modelled). *)
Definition main_entry `{YtdlTool} (tz_offset : Z) (argv : list string) : PyM Env unit :=
  match parse_args argv with
  | PArgs o _ => program tz_offset o
  | PHelp => on_world (print help_text);; raise (SystemExit 0)
  | PError _ => raise (SystemExit 2)
  end.

End startup.

(** ** Inputs of the examples *)

Definition ex_anchor : Anchor :=
  mkAnchor (<["add_date" := "1420070400"]> (<["href" := "http://example.org/v"]>
            (<["private" := "0"]> (<["tags" := "video"]> ∅)))) ["V"].

(** An export with one link, whatever the text read. *)
Definition ex_parse (_ : string) : list Node := [DT (Some ex_anchor)].

Definition ex_env (dirs : gset string) (inputs : gmap string string) : Env :=
  mkEnv (mkWorld dirs [] "" "" "" ∅ []) inputs.

Definition ex_opts (dest mn : option string) : Options :=
  mkOptions None (Some "bookmarks.html") dest (PyStr "False") (PyStr "False") (PyStr "True")
    mn None false false false false None None.

(** ** Lemmas *)

Section startup_lemmas.
Context (help_text : string) (parse_html : string → list Node).

Lemma fail_usage_run {A} msg e :
  @fail_usage help_text A msg e =
  (mkEnv (mkWorld (w_dirs (e_world e)) ((w_stdout (e_world e) ++ [msg]) ++ [help_text]) (w_log (e_world e))
            (w_done (e_world e)) (w_markdown (e_world e)) (w_files (e_world e)) (w_calls (e_world e)))
         (e_inputs e), Raise (SystemExit 1)).
Proof. reflexivity. Qed.

Lemma check_destdir_ok o d e :
  destdir o = Some d → d ≠ "" → check_destdir help_text o e = (e, Ok ()).
Proof. intros Hd Hne. unfold check_destdir. rewrite Hd, bool_decide_true by done. done. Qed.

Lemma open_bookmarks_ok o f content e :
  bookmarksfilename o = Some f → e_inputs e !! f = Some content →
  open_bookmarks help_text o e = (e, Ok content).
Proof. intros Hf Hc. unfold open_bookmarks. rewrite Hf. unfold mbind, pyM_bind, gets. simpl. by rewrite Hc. Qed.

Lemma convert_dates_ok o mn mx e :
  parse_bound (minimum_date o) = Ok mn → parse_bound (maximum_date o) = Ok mx →
  convert_dates o e = (e, Ok (with_dates o mn mx)).
Proof. intros H1 H2. unfold convert_dates, mbind, pyM_bind, liftO. by rewrite H1, H2. Qed.

Lemma makedirs_run p e :
  makedirs p e =
  if bool_decide (p = "" ∨ p ∈ e_dirs e) then (e, Raise OSError)
  else (add_dirs (p :: slash_prefixes "" p) e, Ok ()).
Proof. unfold makedirs, mbind, pyM_bind, gets. simpl. by case_bool_decide. Qed.

(** A path [os.makedirs] creates on the way is a proper prefix of the
    path, followed by a [/]. *)
Lemma slash_prefixes_spec acc s x :
  x ∈ slash_prefixes acc s → ∃ u t, x = acc +:+ u ∧ s = u +:+ String "/" t.
Proof.
  revert acc. induction s as [|c r IH]; intros acc Hx; simpl in Hx; [set_solver|].
  apply elem_of_app in Hx as [Hx|Hx].
  - case_bool_decide as Hc; [|set_solver]. destruct Hc as [-> _].
    apply list_elem_of_singleton in Hx as ->. exists "", r.
    by rewrite string_app_nil_r, string_app_nil_l.
  - destruct (IH _ Hx) as (u & t & -> & ->). exists (String c u), t.
    rewrite <- string_app_assoc, string_app_cons, string_app_nil_l. done.
Qed.

End startup_lemmas.

Lemma string_app_inv_l (d x y : string) : d +:+ x = d +:+ y → x = y.
Proof. induction d as [|c d IH]; [done|]. rewrite !string_app_cons. intros [= H]. by apply IH. Qed.

Lemma makedirs_all_fresh ps e :
  fresh_seq (e_dirs e) ps →
  ∃ e', makedirs_all ps e = (e', Ok ()) ∧ (∀ p, p ∈ ps → p ∈ e_dirs e') ∧
    e_dirs e ⊆ e_dirs e'.
Proof.
  revert e. induction ps as [|p ps IH]; intros e Hf; simpl in *.
  - exists e. split_and!; [done|set_solver|done].
  - destruct Hf as (Hne & Hp & Hf).
    rewrite (pym_bind_step _ _ _ (add_dirs (p :: slash_prefixes "" p) e) ()) by
      (rewrite makedirs_run, bool_decide_false by naive_solver; done).
    destruct (IH (add_dirs (p :: slash_prefixes "" p) e) Hf) as (e' & -> & Hin & Hsub).
    exists e'. simpl in *. split_and!; [done| |set_solver].
    intros q [->|Hq]%elem_of_cons; [set_solver|auto].
Qed.

(** [d + b] is neither [d + a] nor one of the ancestors makedirs
    creates for it, when the suffixes differ that way. *)
Lemma suffix_neq d a b : a ≠ b → d +:+ b ∉ ({[d +:+ a]} : gset string).
Proof. intros Hab H%elem_of_singleton. by apply Hab, eq_sym, (string_app_inv_l d). Qed.

Lemma suffix_not_prefix d a b :
  (∀ t, a ≠ b +:+ String "/" t) →
  d +:+ b ∉ (list_to_set (slash_prefixes "" (d +:+ a)) : gset string).
Proof.
  intros Hpre H. apply elem_of_list_to_set in H.
  destruct (slash_prefixes_spec _ _ _ H) as (u & t & Hu & Ht).
  rewrite string_app_nil_l in Hu. subst u.
  rewrite <- string_app_assoc in Ht. by apply (Hpre t), (string_app_inv_l d).
Qed.

Lemma suffix_neq0 d b : b ≠ "" → d +:+ b ∉ ({[d]} : gset string).
Proof.
  assert (E : ({[d]} : gset string) = {[d +:+ ""]}) by (by rewrite string_app_nil_r).
  rewrite E. intros; by apply suffix_neq.
Qed.

Lemma suffix_not_prefix0 d b :
  (∀ t, "" ≠ b +:+ String "/" t) →
  d +:+ b ∉ (list_to_set (slash_prefixes "" d) : gset string).
Proof.
  assert (E : slash_prefixes "" d = slash_prefixes "" (d +:+ "")) by (by rewrite string_app_nil_r).
  rewrite E. apply suffix_not_prefix.
Qed.

(** Fresh output directories: none of the five paths exists, so each
    [os.makedirs] of the sequence creates its own. *)
Lemma output_dirs_fresh d D :
  d ≠ "" → (∀ p, p ∈ output_dirs d → p ∉ D) → fresh_seq D (output_dirs d).
Proof.
  intros Hd HD. unfold output_dirs. simpl.
  assert (Hne : ∀ b, d +:+ b ≠ "") by (intros b; destruct d; [done|discriminate]).
  rewrite !not_elem_of_union.
  split_and!; first
    [ done | apply Hne | (apply HD; list_mem)
    | (apply suffix_neq0 || apply suffix_neq); discriminate
    | (apply suffix_not_prefix0 || apply suffix_not_prefix); intros t Ht; vm_compute in Ht; discriminate ].
Qed.

(** [makedirs] changes nothing but the directories, and only adds
    some, also when it raises. *)
Definition env_grows (e e' : Env) : Prop :=
  e_world e' = with_dirs (e_dirs e') (e_world e) ∧ e_dirs e ⊆ e_dirs e' ∧ e_inputs e' = e_inputs e.

#[export] Instance env_grows_preorder : PreOrder env_grows.
Proof.
  split; [intros [[] ?]; split_and!; done|].
  intros e1 e2 e3 (W1 & D1 & I1) (W2 & D2 & I2). split_and!; [|set_solver|congruence].
  by rewrite W2, W1.
Qed.

Lemma makedirs_grows p : preserves env_grows (makedirs p).
Proof.
  intros e. rewrite makedirs_run. case_bool_decide; simpl; [reflexivity|].
  split_and!; [done|unfold e_dirs; simpl; set_solver|done].
Qed.

#[local] Hint Resolve makedirs_grows : shaar.

Lemma makedirs_all_grows ps : preserves env_grows (makedirs_all ps).
Proof. induction ps as [|p ps IH]; simpl; preserves_tac. Qed.

Section program_runs.
Context (help_text : string) (parse_html : string → list Node) `{YtdlTool} (tz_offset : Z).

Definition opened (o : Options) (w : World) : World :=
  if truthy (markdown o) then mkWorld (w_dirs w) (w_stdout w) (w_log w) (w_done w) "" (w_files w) (w_calls w)
  else w.

Lemma open_outputs_run o e :
  open_outputs o e = (mkEnv (opened o (e_world e)) (e_inputs e), Ok ()).
Proof. unfold open_outputs, opened. by destruct (truthy (markdown o)); [|destruct e]. Qed.

(** [try: .. except: pass] returns normally, in the state the block
    reached. *)
Lemma try_pass_run c e : try_pass c e = (final c e, Ok ()).
Proof. unfold try_pass. by destruct (c e) as [e' [[]|x]]. Qed.

Lemma make_output_dirs_existing o e :
  destdir_path o ∈ e_dirs e → make_output_dirs o e = (e, Ok ()).
Proof.
  intros Hd. unfold make_output_dirs. rewrite try_pass_run. cbn [output_dirs makedirs_all].
  unfold mbind at 1, pyM_bind at 1. rewrite makedirs_run, bool_decide_true by (by right). done.
Qed.

Lemma make_output_dirs_ok o e :
  ∃ e', make_output_dirs o e = (e', Ok ()) ∧ env_grows e e' ∧
    (destdir_path o ≠ "" → destdir_path o ∈ e_dirs e').
Proof.
  unfold make_output_dirs. rewrite try_pass_run. eexists. split; [done|].
  split; [apply makedirs_all_grows|]. intros Hne.
  cbn [output_dirs makedirs_all]. unfold mbind at 1, pyM_bind at 1. rewrite makedirs_run.
  case_bool_decide as Hb; [destruct Hb as [|Hin]; done|]. simpl.
  match goal with |- _ ∈ e_dirs (final ?c ?e1) =>
    assert (Hc : preserves env_grows c) by preserves_tac; destruct (Hc e1) as (_ & Hsub & _) end.
  apply Hsub. simpl. set_solver.
Qed.

(** The start-up succeeds: the program is the run of the loop on the
    converted options and the parsed links, in the world the [try]
    block of [os.makedirs] left, with the summary emptied. *)
Lemma program_run o d f c mn mx links e :
  destdir o = Some d → d ≠ "" → bookmarksfilename o = Some f → e_inputs e !! f = Some c →
  parse_bound (minimum_date o) = Ok mn → parse_bound (maximum_date o) = Ok mx →
  get_link_list (parse_html c) = Ok links →
  program help_text parse_html tz_offset o e =
  on_world (run tz_offset (with_dates o mn mx) links)
    (mkEnv (opened (with_dates o mn mx) (e_world (final (make_output_dirs (with_dates o mn mx)) e)))
       (e_inputs e)).
Proof.
  intros Hd Hne Hf Hc H1 H2 Hl. unfold program.
  rewrite (pym_bind_step _ _ _ _ _ (check_destdir_ok help_text o d e Hd Hne)).
  rewrite (pym_bind_step _ _ _ _ _ (open_bookmarks_ok help_text o f c e Hf Hc)).
  rewrite (pym_bind_step _ _ _ _ _ (convert_dates_ok o mn mx e H1 H2)).
  destruct (make_output_dirs_ok (with_dates o mn mx) e) as (e' & Hm & (W & D & I) & Hin).
  rewrite (pym_bind_step _ _ _ _ _ Hm), (pym_bind_step _ _ _ _ _ (open_outputs_run _ e')).
  rewrite (pym_bind_step (liftO _) _ _
    (mkEnv (opened (with_dates o mn mx) (e_world e')) (e_inputs e')) links)
    by (unfold liftO; by rewrite Hl).
  by rewrite Hm, I.
Qed.

(** With a date bound, the run stops at the first link. *)
Lemma run_date_bound o l ls w :
  should_compare_dates o = true → ∃ w', run tz_offset o (l :: ls) w = (w', Raise AttributeError).
Proof.
  intros Hd. unfold run.
  rewrite (pym_bind_step (gets w_done) _ w w (w_done w)) by reflexivity. cbv zeta.
  unfold mbind at 1 2, pyM_bind at 1 2.
  destruct (truthy (markdown o)); simpl; eexists; unfold mbind, pyM_bind; simpl;
    unfold process_link, date_filter; rewrite Hd; reflexivity.
Qed.

End program_runs.

(** ** Properties *)

Section startup_properties.
Context (help_text : string) (parse_html : string → list Node) `{YtdlTool} (tz_offset : Z).

(** C24: without [-d], or with an empty one, the program prints the
    error and the help and exits with status 1, before reading any
    file or creating any directory. *)
Theorem program_no_destdir o e :
  destdir o = None ∨ destdir o = Some "" →
  program help_text parse_html tz_offset o e =
  (mkEnv (mkWorld (w_dirs (e_world e)) ((w_stdout (e_world e) ++ ["Error: No destination dir specified"]) ++ [help_text])
            (w_log (e_world e)) (w_done (e_world e)) (w_markdown (e_world e))
            (w_files (e_world e)) (w_calls (e_world e)))
         (e_inputs e), Raise (SystemExit 1)).
Proof.
  intros Hd. unfold program. apply pym_bind_fail. unfold check_destdir.
  destruct Hd as [-> | ->]; [|rewrite bool_decide_false by (intros Hne; by apply Hne)];
    apply fail_usage_run.
Qed.

(** C25: a bookmarks file that cannot be opened makes the program print
    [Error: Bookmarks file F not found] and the help, and exit with
    status 1. *)
Theorem program_bookmarks_missing o d f e :
  destdir o = Some d → d ≠ "" → bookmarksfilename o = Some f → e_inputs e !! f = None →
  program help_text parse_html tz_offset o e =
  (mkEnv (mkWorld (w_dirs (e_world e)) ((w_stdout (e_world e) ++ ["Error: Bookmarks file " +:+ f +:+ " not found"])
                   ++ [help_text])
            (w_log (e_world e)) (w_done (e_world e)) (w_markdown (e_world e))
            (w_files (e_world e)) (w_calls (e_world e)))
         (e_inputs e), Raise (SystemExit 1)).
Proof.
  intros Hd Hne Hf Hn. unfold program.
  rewrite (pym_bind_step _ _ _ _ _ (check_destdir_ok help_text o d e Hd Hne)).
  apply pym_bind_fail. unfold open_bookmarks. rewrite Hf.
  unfold mbind, pyM_bind, gets. simpl. rewrite Hn. apply fail_usage_run.
Qed.

(** C26: a [--min-date] that [strptime] rejects (for instance
    [2015-01-01] or [31/02/2015]) raises [ValueError] out of the
    program, before any output or directory is made. *)
Theorem program_bad_min_date o d f c s e :
  destdir o = Some d → d ≠ "" → bookmarksfilename o = Some f → e_inputs e !! f = Some c →
  minimum_date o = Some s → Strptime.strptime_dmy s = Raise ValueError →
  program help_text parse_html tz_offset o e = (e, Raise ValueError).
Proof.
  intros Hd Hne Hf Hc Hs Hp. unfold program.
  rewrite (pym_bind_step _ _ _ _ _ (check_destdir_ok help_text o d e Hd Hne)).
  rewrite (pym_bind_step _ _ _ _ _ (open_bookmarks_ok help_text o f c e Hf Hc)).
  apply pym_bind_fail. unfold convert_dates. apply pym_bind_fail.
  unfold liftO, parse_bound. rewrite Hs. simpl. by rewrite Hp.
Qed.

(** C27: when none of the five output directories exists, the [try]
    block creates all of them: the destination, [video], [audio],
    [audio/mp3] and [pages]. *)
Theorem make_output_dirs_fresh o e :
  destdir_path o ≠ "" → (∀ p, p ∈ output_dirs (destdir_path o) → p ∉ e_dirs e) →
  ∃ e', make_output_dirs o e = (e', Ok ()) ∧
    ∀ p, p ∈ output_dirs (destdir_path o) → p ∈ e_dirs e'.
Proof.
  intros Hne HD. unfold make_output_dirs. rewrite try_pass_run.
  destruct (makedirs_all_fresh _ e (output_dirs_fresh _ _ Hne HD)) as (e' & He & Hin & _).
  rewrite He. by exists e'.
Qed.

(** C28: when the destination directory already exists, the first
    [os.makedirs] raises, the bare [except] swallows it, and none of the
    sub-directories is created, even if they are missing. *)
Theorem make_output_dirs_dest_exists o e :
  destdir_path o ∈ e_dirs e → make_output_dirs o e = (e, Ok ()).
Proof. apply make_output_dirs_existing. Qed.

(** C29: once the start-up succeeds, the program is the loop [run] on
    the converted options and the parsed links, started from the world
    the [try] block of [os.makedirs] left -- the same outputs, with the
    destination among the directories -- whose summary was emptied:
    outcome and final world are those of [run]. *)
Theorem program_after_startup o d f c mn mx links e :
  destdir o = Some d → d ≠ "" → bookmarksfilename o = Some f → e_inputs e !! f = Some c →
  parse_bound (minimum_date o) = Ok mn → parse_bound (maximum_date o) = Ok mx →
  get_link_list (parse_html c) = Ok links →
  let o' := with_dates o mn mx in
  let e' := final (make_output_dirs o') e in
  result (program help_text parse_html tz_offset o) e =
    result (run tz_offset o' links) (opened o' (e_world e')) ∧
  e_world (final (program help_text parse_html tz_offset o) e) =
    final (run tz_offset o' links) (opened o' (e_world e')) ∧
  e_world e' = with_dirs (e_dirs e') (e_world e) ∧ d ∈ e_dirs e'.
Proof.
  intros Hd Hne Hf Hc H1 H2 Hl. cbv zeta.
  rewrite (program_run help_text parse_html tz_offset o d f c mn mx links e Hd Hne Hf Hc H1 H2 Hl).
  destruct (make_output_dirs_ok help_text parse_html (with_dates o mn mx) e) as (e' & Hm & (W & _ & _) & Hin).
  unfold on_world. simpl. rewrite Hm. split_and!; [done..|].
  assert (Ed : destdir_path (with_dates o mn mx) = d) by (unfold destdir_path; simpl; by rewrite Hd).
  rewrite Ed in Hin. by apply Hin.
Qed.

(** C30: a run given [--min-date] with a valid date, on an export with at
    least one link, ends in [AttributeError]: the date filter the
    option asks for never works. *)
Theorem program_min_date_aborts o d f c s z mx l ls e :
  destdir o = Some d → d ≠ "" → bookmarksfilename o = Some f → e_inputs e !! f = Some c →
  minimum_date o = Some s → Strptime.strptime_dmy s = Ok z →
  parse_bound (maximum_date o) = Ok mx →
  get_link_list (parse_html c) = Ok (l :: ls) →
  result (program help_text parse_html tz_offset o) e = Raise AttributeError.
Proof.
  intros Hd Hne Hf Hc Hs Hz H2 Hl.
  assert (H1 : parse_bound (minimum_date o) = Ok (Some z)) by (unfold parse_bound; by rewrite Hs, Hz).
  rewrite (program_run help_text parse_html tz_offset o d f c _ mx _ e Hd Hne Hf Hc H1 H2 Hl).
  match goal with |- result (on_world _) ?e1 = _ =>
    destruct (run_date_bound tz_offset (with_dates o (Some z) mx) l ls (e_world e1)) as (w' & Hw) end.
  - unfold with_dates. simpl. rewrite Hs. apply bool_decide_eq_true. left. done.
  - unfold on_world. cbn [e_world] in *. by rewrite Hw.
Qed.

End startup_properties.

Lemma program_no_destdir_witness :
  @program "usage" ex_parse (ytdl_const 0%Z) 0 (ex_opts None None) (ex_env ∅ ∅) =
  (mkEnv (mkWorld ∅ (([] ++ ["Error: No destination dir specified"]) ++ ["usage"]) "" "" "" ∅ [])
         ∅, Raise (SystemExit 1)).
Proof. apply (@program_no_destdir "usage" ex_parse (ytdl_const 0%Z) 0). by left. Defined.

Lemma program_bookmarks_missing_witness :
  @program "usage" ex_parse (ytdl_const 0%Z) 0 (ex_opts (Some "/b") None) (ex_env ∅ ∅) =
  (mkEnv (mkWorld ∅ (([] ++ ["Error: Bookmarks file " +:+ "bookmarks.html" +:+ " not found"]) ++ ["usage"])
            "" "" "" ∅ []) ∅, Raise (SystemExit 1)).
Proof.
  apply (@program_bookmarks_missing "usage" ex_parse (ytdl_const 0%Z) 0 _ "/b");
    [reflexivity|discriminate|reflexivity|reflexivity].
Defined.

Lemma program_bad_min_date_witness :
  @program "usage" ex_parse (ytdl_const 0%Z) 0 (ex_opts (Some "/b") (Some "2015-01-01"))
    (ex_env ∅ {["bookmarks.html" := "<DL>"]}) =
  (ex_env ∅ {["bookmarks.html" := "<DL>"]}, Raise ValueError).
Proof.
  apply (@program_bad_min_date "usage" ex_parse (ytdl_const 0%Z) 0 _ "/b" "bookmarks.html" "<DL>"
    "2015-01-01"); first [reflexivity | discriminate | vm_compute; reflexivity].
Defined.

Lemma make_output_dirs_fresh_witness :
  ∃ e', make_output_dirs (ex_opts (Some "/b") None) (ex_env ∅ ∅) = (e', Ok ()) ∧
    ∀ p, p ∈ output_dirs "/b" → p ∈ e_dirs e'.
Proof. apply make_output_dirs_fresh; [discriminate|set_solver]. Defined.

Lemma make_output_dirs_dest_exists_witness :
  make_output_dirs (ex_opts (Some "/b") None) (ex_env {["/b"]} ∅) = (ex_env {["/b"]} ∅, Ok ()).
Proof. apply make_output_dirs_dest_exists. simpl. set_solver. Defined.

Lemma program_after_startup_witness :
  let o' := with_dates (ex_opts (Some "/b") None) None None in
  let e' := final (make_output_dirs o') (ex_env ∅ {["bookmarks.html" := "<DL>"]}) in
  result (@program "usage" ex_parse (ytdl_const 0%Z) 0 (ex_opts (Some "/b") None))
    (ex_env ∅ {["bookmarks.html" := "<DL>"]}) =
  result (@run (ytdl_const 0%Z) 0 o'
            [mkLink "1420070400" "http://example.org/v" false ["video"] "V" "" false])
    (opened o' (e_world e')) ∧
  e_world (final (@program "usage" ex_parse (ytdl_const 0%Z) 0 (ex_opts (Some "/b") None))
    (ex_env ∅ {["bookmarks.html" := "<DL>"]})) =
  final (@run (ytdl_const 0%Z) 0 o'
            [mkLink "1420070400" "http://example.org/v" false ["video"] "V" "" false])
    (opened o' (e_world e')) ∧
  e_world e' = with_dirs (e_dirs e') (e_world (ex_env ∅ {["bookmarks.html" := "<DL>"]})) ∧
  "/b" ∈ e_dirs e'.
Proof.
  apply (@program_after_startup "usage" ex_parse (ytdl_const 0%Z) 0 _ "/b" "bookmarks.html" "<DL>");
    first [reflexivity | discriminate | vm_compute; reflexivity].
Defined.

Lemma program_min_date_aborts_witness :
  result (@program "usage" ex_parse (ytdl_const 0%Z) 0 (ex_opts (Some "/b") (Some "01/01/2015")))
    (ex_env ∅ {["bookmarks.html" := "<DL>"]}) = Raise AttributeError.
Proof.
  apply (@program_min_date_aborts "usage" ex_parse (ytdl_const 0%Z) 0 _ "/b" "bookmarks.html" "<DL>"
    "01/01/2015" 16436 None (mkLink "1420070400" "http://example.org/v" false ["video"] "V" "" false) []);
    first [reflexivity | discriminate | vm_compute; reflexivity].
Defined.

Section entry_properties.
Context (help_text : string) (parse_html : string → list Node) `{YtdlTool} (tz_offset : Z).

(** C34: [bookmarks-fetcher.py -d D -f F] with a readable [F] runs the
    loop over the links of [F] with the options [-d D -f F] gives (the
    others at their defaults, no date bound), from the world the
    directory creation left, with the summary emptied ([--markdown]'s
    default is true). *)
Theorem main_entry_runs d f c links e :
  d ≠ "" → e_inputs e !! f = Some c → get_link_list (parse_html c) = Ok links →
  let o' := with_dates (set_opt OFile f (set_opt ODest d default_options)) None None in
  let e' := final (make_output_dirs o') e in
  result (main_entry help_text parse_html tz_offset ["-d"; d; "-f"; f]) e =
    result (run tz_offset o' links) (opened o' (e_world e')) ∧
  e_world (final (main_entry help_text parse_html tz_offset ["-d"; d; "-f"; f]) e) =
    final (run tz_offset o' links) (opened o' (e_world e')).
Proof.
  intros Hd Hc Hl. cbv zeta. unfold main_entry.
  change (parse_args ["-d"; d; "-f"; f]) with (PArgs (set_opt OFile f (set_opt ODest d default_options)) []).
  cbv beta iota.
  rewrite (program_run help_text parse_html tz_offset (set_opt OFile f (set_opt ODest d default_options))
    d f c None None links e eq_refl Hd eq_refl Hc eq_refl eq_refl Hl).
  done.
Qed.

End entry_properties.

Lemma main_entry_runs_witness :
  let o' := with_dates (set_opt OFile "bookmarks.html" (set_opt ODest "/b" default_options)) None None in
  let e' := final (make_output_dirs o') (ex_env ∅ {["bookmarks.html" := "<DL>"]}) in
  result (@main_entry "usage" ex_parse (ytdl_const 0%Z) 0 ["-d"; "/b"; "-f"; "bookmarks.html"])
    (ex_env ∅ {["bookmarks.html" := "<DL>"]}) =
  result (@run (ytdl_const 0%Z) 0 o'
            [mkLink "1420070400" "http://example.org/v" false ["video"] "V" "" false])
    (opened o' (e_world e')) ∧
  e_world (final (@main_entry "usage" ex_parse (ytdl_const 0%Z) 0 ["-d"; "/b"; "-f"; "bookmarks.html"])
    (ex_env ∅ {["bookmarks.html" := "<DL>"]})) =
  final (@run (ytdl_const 0%Z) 0 o'
           [mkLink "1420070400" "http://example.org/v" false ["video"] "V" "" false])
    (opened o' (e_world e')).
Proof.
  apply (@main_entry_runs "usage" ex_parse (ytdl_const 0%Z) 0 "/b" "bookmarks.html" "<DL>");
    first [discriminate | reflexivity | vm_compute; reflexivity].
Defined.
